(** * Survey service, eligibility pipeline, migration and response-note
      authorisation: a shallow embedding and its verified properties.

    The embedding follows the TypeScript sources function by function:
    - the one-shot migration script ([Migration.main]),
    - the survey service ([getSurvey], [getSurveys], [updateSurvey],
      [createSurvey], [getSyncSurveys], [getSurveysBySegmentId], ...),
    - [canUserModifyResponseNote] of the response-note authorisation file.

    Strings stay strings (statuses, display options and operators are compared
    with string literals in the source), nullable fields are [option]s, JS
    objects used as dictionaries are [gmap]s, thrown exceptions are the [Err]
    branch of [result], and [new Date()] is an explicit [now] argument
    (milliseconds since the epoch). *)

From Stdlib Require Import ZArith Lia.
From stdpp Require Import base option strings pretty list sorting gmap.

Set Warnings "-register-all".

Open Scope Z_scope.
Open Scope string_scope.

(** ** Exceptions and the error monad *)

Inductive error : Type :=
| ValidationError (msg : string)
| InvalidInputError (msg : string)
| ResourceNotFoundError (resource ident : string)
| DatabaseError (msg : string)
| RecordNotFound (model : string)
| TypeError (msg : string)
| GenericError (msg : string).

Inductive result (A : Type) : Type :=
| Ok (a : A)
| Err (e : error).
Arguments Ok {A} a.
Arguments Err {A} e.

#[export] Instance result_ret : MRet result := λ A a, Ok a.
#[export] Instance result_bind : MBind result := λ A B f r,
  match r with
  | Ok a => f a
  | Err e => Err e
  end.

#[export] Instance result_fmap : FMap result := λ A B f r,
  match r with
  | Ok a => Ok (f a)
  | Err e => Err e
  end.

Definition isOk {A} (r : result A) : bool :=
  match r with Ok _ => true | Err _ => false end.

(** [Array.prototype.filter] with a callback that may throw: elements are
    visited in order and the first exception aborts the whole call. *)
Fixpoint filterM {A} (f : A → result bool) (l : list A) : result (list A) :=
  match l with
  | [] => Ok []
  | x :: xs =>
      b ← f x;
      rest ← filterM f xs;
      Ok (if b : bool then x :: rest else rest)
  end.

(** [Promise.all(xs.map(async ...))]: every element is mapped, one rejection
    rejects the whole. *)
Fixpoint mapMr {A B} (f : A → result B) (l : list A) : result (list B) :=
  match l with
  | [] => Ok []
  | x :: xs =>
      y ← f x;
      ys ← mapMr f xs;
      Ok (y :: ys)
  end.

(** ** Data model *)

(** A date-typed field at run time: a [Date] object, or the ISO string the
    JSON round trip of the cache leaves in its place.  Both carry the instant
    in milliseconds. *)
Inductive TDate : Type :=
| DateObj (ms : Z)
| DateStr (ms : Z).

#[export] Instance TDate_eq_dec : EqDecision TDate.
Proof. solve_decision. Defined.

(** [new Date(x).getTime()] *)
Definition dateValue (d : TDate) : Z :=
  match d with DateObj ms => ms | DateStr ms => ms end.

Definition isDateObj (d : TDate) : bool :=
  match d with DateObj _ => true | DateStr _ => false end.

(** [typeof x === "string" ? new Date(x) : x] *)
Definition reviveDate (d : TDate) : TDate := DateObj (dateValue d).

(** [JSON.parse(JSON.stringify(x))] on a date-typed field *)
Definition stringifyDate (d : TDate) : TDate := DateStr (dateValue d).

(** Person attribute values are strings or numbers. *)
Inductive TAttributeValue : Type :=
| AttrString (s : string)
| AttrNumber (n : Z).

#[export] Instance TAttributeValue_eq_dec : EqDecision TAttributeValue.
Proof. solve_decision. Defined.

(** JS truthiness of the values the sources test with [!x] or [x && ...]. *)
Definition truthyString (s : string) : bool := negb (bool_decide (s = "")).

Definition truthyOptString (o : option string) : bool :=
  match o with Some s => truthyString s | None => false end.

Definition truthyAttr (v : TAttributeValue) : bool :=
  match v with
  | AttrString s => truthyString s
  | AttrNumber n => negb (bool_decide (n = 0))
  end.

(** [v === s] for a string [s] *)
Definition attrStrictEquals (v : TAttributeValue) (s : string) : bool :=
  match v with
  | AttrString s' => bool_decide (s' = s)
  | AttrNumber _ => false
  end.

(** Modelled from the spec: the filter tree of a segment (its type
    declarations live in the types package, which is not part of these files):
    a node is a leaf predicate (attribute / action / device / person comparison
    with an operator) or a group of child nodes; each node carries the
    connector that joins it to its predecessor ([None] on the first). *)
Inductive TFilterRoot : Type :=
| RootAttribute (attributeClassName : string)
| RootAction (actionClassId : string)
| RootDevice
| RootPerson.

Inductive TConnector : Type := ConnAnd | ConnOr.

Inductive TFilterNode : Type :=
| FilterLeaf (connector : option TConnector) (root : TFilterRoot)
    (operator : string) (value : string)
| FilterGroup (connector : option TConnector) (children : list TFilterNode).

Definition TBaseFilters : Type := list TFilterNode.

Record TSegment : Type := mkSegment {
  segment_id : string;
  segment_title : string;
  segment_isPrivate : bool;
  segment_environmentId : string;
  segment_filters : TBaseFilters;
  segment_createdAt : TDate;
  segment_updatedAt : TDate;
  segment_surveys : list string;
}.

Record TActionClass : Type := mkActionClass {
  actionClass_id : string;
  actionClass_name : string;
  actionClass_environmentId : string;
}.

(** A survey.  The rows prisma returns under [selectSurvey] and the [TSurvey]
    values of the service differ in their [triggers]: action classes in the
    former, action-class names in the latter. *)
Record SurveyOf (Trigger : Type) : Type := mkSurvey {
  survey_id : string;
  survey_createdAt : TDate;
  survey_updatedAt : TDate;
  survey_name : string;
  survey_type : string;
  survey_environmentId : string;
  survey_createdBy : option string;
  survey_status : string;
  survey_displayOption : string;
  survey_recontactDays : option Z;
  survey_runOnDate : option TDate;
  survey_closeOnDate : option TDate;
  survey_triggers : list Trigger;
  survey_inlineTriggers : option string;
  survey_segment : option TSegment;
}.
Arguments mkSurvey {Trigger}.
Arguments survey_id {Trigger} _.
Arguments survey_createdAt {Trigger} _.
Arguments survey_updatedAt {Trigger} _.
Arguments survey_name {Trigger} _.
Arguments survey_type {Trigger} _.
Arguments survey_environmentId {Trigger} _.
Arguments survey_createdBy {Trigger} _.
Arguments survey_status {Trigger} _.
Arguments survey_displayOption {Trigger} _.
Arguments survey_recontactDays {Trigger} _.
Arguments survey_runOnDate {Trigger} _.
Arguments survey_closeOnDate {Trigger} _.
Arguments survey_triggers {Trigger} _.
Arguments survey_inlineTriggers {Trigger} _.
Arguments survey_segment {Trigger} _.

Abbreviation TSurvey := (SurveyOf string).
Abbreviation PrismaSurvey := (SurveyOf TActionClass).

Definition withTriggersAndSegment {T U} (s : SurveyOf T) (triggers : list U)
    (segment : option TSegment) : SurveyOf U :=
  mkSurvey (survey_id s) (survey_createdAt s) (survey_updatedAt s) (survey_name s)
    (survey_type s) (survey_environmentId s) (survey_createdBy s) (survey_status s)
    (survey_displayOption s) (survey_recontactDays s) (survey_runOnDate s)
    (survey_closeOnDate s) triggers (survey_inlineTriggers s) segment.

Record TDisplay : Type := mkDisplay {
  display_id : string;
  display_surveyId : string;
  display_responseId : option string;
  display_createdAt : TDate;
}.

Record TPerson : Type := mkPerson {
  person_id : string;
  person_userId : option string;
  person_attributes : option (gmap string TAttributeValue);
}.

Record TProduct : Type := mkProduct {
  product_id : string;
  product_recontactDays : option Z;
}.

Record TAction : Type := mkAction {
  action_id : string;
  action_actionClass : option TActionClass;
}.

Record TUser : Type := mkUser {
  user_id : string;
  user_name : string;
}.

Record TResponseNote : Type := mkResponseNote {
  responseNote_id : string;
  responseNote_text : string;
  responseNote_user : TUser;
}.

(** One flat attribute filter of the legacy protocol. *)
Record TSurveyAttributeFilter : Type := mkAttributeFilter {
  attributeClassName : string;
  operator : string;
  value : string;
}.

(** The user data handed to the structured segment evaluator. *)
Record TEvaluateSegmentUserData : Type := mkUserData {
  ud_attributes : gmap string TAttributeValue;
  ud_actionIds : list string;
  ud_deviceType : string;
  ud_environmentId : string;
  ud_personId : string;
  ud_userId : TAttributeValue;
}.

Record TThankYouCard : Type := mkThankYouCard {
  thankYouCard_enabled : bool;
  thankYouCard_buttonLabel : option string;
  thankYouCard_buttonLink : option string;
}.

(** The body accepted by [createSurvey]; every field is optional. *)
Record TSurveyInput : Type := mkSurveyInput {
  input_name : option string;
  input_type : option string;
  input_createdBy : option string;
  input_status : option string;
  input_displayOption : option string;
  input_recontactDays : option Z;
  input_runOnDate : option TDate;
  input_closeOnDate : option TDate;
  input_thankYouCard : option TThankYouCard;
  input_triggers : option (list string);
  input_inlineTriggers : option string;
}.

(** The nested write prisma receives for the triggers of a survey. *)
Record TriggerUpdate : Type := mkTriggerUpdate {
  tu_create : option (list string);
  tu_deleteMany : option (list string);
}.

(** The [data] object [updateSurvey] hands to [prisma.survey.update]: the
    scalar fields of the updated survey and the trigger update. *)
Record SurveyUpdateData : Type := mkUpdateData {
  data_createdAt : TDate;
  data_updatedAt : TDate;
  data_name : string;
  data_type : string;
  data_createdBy : option string;
  data_status : string;
  data_displayOption : string;
  data_recontactDays : option Z;
  data_runOnDate : option TDate;
  data_closeOnDate : option TDate;
  data_inlineTriggers : option string;
  data_triggers : TriggerUpdate;
}.

Definition withStatus (status : string) (d : SurveyUpdateData) : SurveyUpdateData :=
  mkUpdateData (data_createdAt d) (data_updatedAt d) (data_name d) (data_type d)
    (data_createdBy d) status (data_displayOption d) (data_recontactDays d)
    (data_runOnDate d) (data_closeOnDate d) (data_inlineTriggers d) (data_triggers d).

(** The [data] object of [prisma.survey.create]. *)
Record SurveyCreateData : Type := mkCreateData {
  create_body : TSurveyInput;
  create_triggers : option TriggerUpdate;
  create_creator : option string;
  create_environment : string;
}.

(** The arguments of a [cache.revalidate] call. *)
Record RevalidateProps : Type := mkRevalidate {
  rv_id : option string;
  rv_environmentId : option string;
  rv_segmentId : option string;
  rv_actionClassId : option string;
}.

(** ** The store and the derived-result cache *)

(** What the database and the neighbouring services hold.  Survey rows are in
    the order the store returns them and carry [Date] objects. *)
Record Store : Type := mkStore {
  store_surveys : list PrismaSurvey;
  store_products : gmap string TProduct;
  store_people : gmap string TPerson;
  store_displays : gmap string (list TDisplay);
  store_actions : gmap string (list TAction);
  store_actionClasses : list TActionClass;
  store_responseNotes : gmap string TResponseNote;
}.

(** The entries of [unstable_cache], by key.  Keys start with the name of the
    operation, so entries of different result types never meet; they are kept
    in one table per result type. *)
Record Cache : Type := mkCache {
  cache_survey : gmap string (option TSurvey);
  cache_surveys : gmap string (list TSurvey);
  cache_verdict : gmap string bool;
}.

Record World : Type := mkWorld {
  store : Store;
  cache : Cache;
}.

(** Service code: it reads and writes the world and may throw.  A throw keeps
    the world reached so far. *)
Definition M (A : Type) : Type := World → result A * World.

#[export] Instance M_ret : MRet M := λ A a w, (Ok a, w).
#[export] Instance M_bind : MBind M := λ A B f m w,
  match m w with
  | (Ok a, w') => f a w'
  | (Err e, w') => (Err e, w')
  end.

#[export] Instance M_fmap : FMap M := λ A B f m w,
  match m w with
  | (Ok a, w') => (Ok (f a), w')
  | (Err e, w') => (Err e, w')
  end.

Definition liftR {A} (r : result A) : M A := λ w, (r, w).
Definition throw {A} (e : error) : M A := λ w, (Err e, w).
Definition getStore : M Store := λ w, (Ok (store w), w).

Fixpoint mapM_ {A} (f : A → M unit) (l : list A) : M unit :=
  match l with
  | [] => mret tt
  | x :: xs => f x ;; mapM_ f xs
  end.

Fixpoint mapMw {A B} (f : A → M B) (l : list A) : M (list B) :=
  match l with
  | [] => mret []
  | x :: xs => y ← f x; ys ← mapMw f xs; mret (y :: ys)
  end.

(** ** Collaborators that live outside these files

    Functions, schemas and constants the sources import but do not define are
    taken as parameters; nothing is assumed about them beyond their types. *)
Class Collaborators : Type := {
  (** [validateInputs([x, ZId])]: does the identifier pass the schema? *)
  ZId : string → bool;
  (** [validateInputs([survey, ZSurveyWithRefinements])] *)
  ZSurveyWithRefinements : TSurvey → bool;
  (** [ZSegmentFilters.safeParse(filters).success] *)
  ZSegmentFilters : TBaseFilters → bool;
  (** constants *)
  ITEMS_PER_PAGE : nat;
  (** survey/util: the filter criteria of a listing and what they select *)
  TSurveyFilterCriteria : Type;
  buildWhereClause : option TSurveyFilterCriteria → PrismaSurvey → bool;
  buildOrderByClause :
    option TSurveyFilterCriteria → list PrismaSurvey → list PrismaSurvey;
  stringifyFilterCriteria : option TSurveyFilterCriteria → string;
  (** utils/datetime: [diffInDays(date1, date2)], on instants *)
  diffInDays : Z → Z → Z;
  (** segment/utils: [null] when the tree has no flat equivalent *)
  transformSegmentFiltersToAttributeFilters :
    TBaseFilters → option (list TSurveyAttributeFilter);
  (** survey/util *)
  anySurveyHasFilters : list TSurvey → bool;
  (** segment/service *)
  evaluateSegment : TEvaluateSegmentUserData → TBaseFilters → result bool;
  updateSegment : string → TSegment → M unit;
  (** team/service *)
  subscribeTeamMembersToSurveyResponses : string → string → M unit;
  (** survey/cache: eviction of the entries tagged by the given keys *)
  surveyCache_revalidate : RevalidateProps → Cache → Cache;
  (** [prisma.survey.create]: identifier, timestamps and column defaults are
      the database's *)
  prisma_survey_create : SurveyCreateData → Store → result (PrismaSurvey * Store);
}.

(** [validateInputs] throws on the first pair that fails its schema. *)
Definition validateInputs (checks : list bool) : result unit :=
  if forallb (λ b, b) checks then Ok tt else Err (ValidationError "Validation failed").

(** ** The migration script

    [main] runs inside one [prisma.$transaction]: an exception thrown by any
    query rolls everything back, which is the [Err] result here (the database
    is then left as it was). *)
Module Migration.

Record SurveyRow : Type := mkSurveyRow {
  sv_id : string;
  sv_type : string;
  sv_segmentId : option string;
}.

Record SegmentRow : Type := mkSegmentRow {
  sg_id : string;
  sg_title : string;
  sg_isPrivate : bool;
}.

Record ResponseRow : Type := mkResponseRow {
  rs_id : string;
  rs_surveyId : string;
  rs_personId : option string;
  rs_createdAt : Z;
}.

Record Database : Type := mkDatabase {
  surveys : list SurveyRow;
  segments : list SegmentRow;
  responses : list ResponseRow;
}.

Definition setType (t : string) (s : SurveyRow) : SurveyRow :=
  mkSurveyRow (sv_id s) t (sv_segmentId s).

Definition disconnectSegment (s : SurveyRow) : SurveyRow :=
  mkSurveyRow (sv_id s) (sv_type s) None.

(** The segment a foreign key points to. *)
Definition segment_findUnique (id : string) (db : Database) : option SegmentRow :=
  head (filter (λ g, sg_id g = id) (segments db)).

(** [tx.survey.findMany({ where: { type: "web" }, include: { segment: true } })]:
    each row comes with the segment it is connected to, as it is when the
    query runs. *)
Definition survey_findMany_web (db : Database) : list (SurveyRow * option SegmentRow) :=
  (λ s, (s, sv_segmentId s ≫= λ g, segment_findUnique g db))
    <$> filter (λ s, sv_type s = "web") (surveys db).

(** [tx.response.findFirst({ where: { surveyId }, orderBy: { createdAt: "desc" } })] *)
Fixpoint latestOf (rs : list ResponseRow) : option ResponseRow :=
  match rs with
  | [] => None
  | r :: rest =>
      match latestOf rest with
      | Some r' => if bool_decide (rs_createdAt r < rs_createdAt r')%Z then Some r' else Some r
      | None => Some r
      end
  end.

Definition response_findFirst_latest (surveyId : string) (db : Database)
  : option ResponseRow :=
  latestOf (filter (λ r, rs_surveyId r = surveyId) (responses db)).

(** [tx.survey.update({ where: { id }, data })]: throws when no row has the id. *)
Definition survey_update (id : string) (f : SurveyRow → SurveyRow) (db : Database)
  : result Database :=
  if bool_decide (Exists (λ s, sv_id s = id) (surveys db))
  then Ok (mkDatabase
             ((λ s, if bool_decide (sv_id s = id) then f s else s) <$> surveys db)
             (segments db) (responses db))
  else Err (RecordNotFound "Survey").

(** Deleting segments nulls the foreign key of the surveys that pointed to
    them (the relation is optional, so the referential action is SetNull). *)
Definition dropSegments (gone : SegmentRow → Prop) `{∀ g, Decision (gone g)}
    (db : Database) : Database :=
  let kept := filter (λ g, ¬ gone g) (segments db) in
  mkDatabase
    ((λ s, match sv_segmentId s with
           | Some g =>
               if bool_decide (Exists (λ r, sg_id r = g) kept) then s
               else disconnectSegment s
           | None => s
           end) <$> surveys db)
    kept (responses db).

(** [tx.segment.delete({ where: { id } })]: throws when no row has the id. *)
Definition segment_delete (id : string) (db : Database) : result Database :=
  if bool_decide (Exists (λ g, sg_id g = id) (segments db))
  then Ok (dropSegments (λ g, sg_id g = id) db)
  else Err (RecordNotFound "Segment").

(** [tx.segment.deleteMany({ where: { title, isPrivate: true } })]: never throws. *)
Definition segment_deleteMany_private_titled (title : string) (db : Database)
  : Database :=
  dropSegments (λ g, sg_title g = title ∧ sg_isPrivate g = true) db.

(** The body of the [for (const webSurvey of webSurveys)] loop. *)
Definition migrateSurvey (webSurvey : SurveyRow * option SegmentRow) (db : Database)
  : result Database :=
  let latestResponse := response_findFirst_latest (sv_id webSurvey.1) db in
  if truthyOptString (latestResponse ≫= rs_personId)
  then survey_update (sv_id webSurvey.1) (setType "app") db
  else
    db ← survey_update (sv_id webSurvey.1) (setType "website") db;
    db ← match webSurvey.2 with
         | Some segment =>
             if sg_isPrivate segment
             then segment_delete (sg_id segment) db
             else survey_update (sv_id webSurvey.1) disconnectSegment db
         | None => Ok db
         end;
    Ok (segment_deleteMany_private_titled (sv_id webSurvey.1) db).

Fixpoint migrateAll (webSurveys : list (SurveyRow * option SegmentRow)) (db : Database)
  : result Database :=
  match webSurveys with
  | [] => Ok db
  | webSurvey :: rest => db' ← migrateSurvey webSurvey db; migrateAll rest db'
  end.

Definition main (db : Database) : result Database :=
  migrateAll (survey_findMany_web db) db.

(** *** What the migration is expected to achieve *)

(** [latestResponse?.personId], as a condition *)
Definition carriesPersonReference (surveyId : string) (db : Database) : bool :=
  truthyOptString (response_findFirst_latest surveyId db ≫= rs_personId).

Definition migratedType (surveyId : string) (db : Database) : string :=
  if carriesPersonReference surveyId db then "app" else "website".

(** The state of the rows of one migrated survey in a later database. *)
Definition migrated (webSurvey : SurveyRow * option SegmentRow) (db' : Database) : Prop :=
  (∀ s', s' ∈ surveys db' → sv_id s' = sv_id webSurvey.1 →
         sv_type s' = migratedType (sv_id webSurvey.1) db')
  ∧ (carriesPersonReference (sv_id webSurvey.1) db' = false →
       (∀ segment, webSurvey.2 = Some segment →
          if sg_isPrivate segment
          then ∀ r, r ∈ segments db' → sg_id r ≠ sg_id segment
          else ∀ s', s' ∈ surveys db' → sv_id s' = sv_id webSurvey.1 →
                     sv_segmentId s' = None)
       ∧ ∀ r, r ∈ segments db' →
              ¬ (sg_title r = sv_id webSurvey.1 ∧ sg_isPrivate r = true)).

(** How a database can change while the migration runs: responses stay,
    segments only disappear, surveys keep their identifiers, may lose their
    segment and may receive the type the migration gives them. *)
Definition evolves (db db' : Database) : Prop :=
  responses db' = responses db
  ∧ (∀ r, r ∈ segments db' → r ∈ segments db)
  ∧ (∀ s', s' ∈ surveys db' →
       ∃ s, s ∈ surveys db ∧ sv_id s' = sv_id s
            ∧ (sv_segmentId s' = None ∨ sv_segmentId s' = sv_segmentId s)
            ∧ (sv_type s' = sv_type s ∨ sv_type s' = migratedType (sv_id s) db))
  ∧ (∀ s, s ∈ surveys db → ∃ s', s' ∈ surveys db' ∧ sv_id s' = sv_id s).

(** Integrity of the data the migration starts from: survey identifiers are
    unique, and a private segment connected to a "web" survey carries that
    survey's identifier as its title (the way private segments are created). *)
Definition uniqueSurveyIds (db : Database) : Prop :=
  NoDup (sv_id <$> surveys db).

Definition privateSegmentsTitledByOwner (db : Database) : Prop :=
  ∀ s segment,
    s ∈ surveys db → sv_type s = "web" →
    sv_segmentId s ≫= (λ g, segment_findUnique g db) = Some segment →
    sg_isPrivate segment = true →
    sg_title segment = sv_id s.

End Migration.

(** ** The derived-result cache *)

(** [JSON.parse(JSON.stringify(v))]: what a cached value looks like when it is
    read back.  Date objects come back as strings. *)
Definition jsonSegment (g : TSegment) : TSegment :=
  mkSegment (segment_id g) (segment_title g) (segment_isPrivate g)
    (segment_environmentId g) (segment_filters g)
    (stringifyDate (segment_createdAt g)) (stringifyDate (segment_updatedAt g))
    (segment_surveys g).

Definition jsonSurvey (s : TSurvey) : TSurvey :=
  mkSurvey (survey_id s) (stringifyDate (survey_createdAt s))
    (stringifyDate (survey_updatedAt s)) (survey_name s) (survey_type s)
    (survey_environmentId s) (survey_createdBy s) (survey_status s)
    (survey_displayOption s) (survey_recontactDays s)
    (stringifyDate <$> survey_runOnDate s) (stringifyDate <$> survey_closeOnDate s)
    (survey_triggers s) (survey_inlineTriggers s) (jsonSegment <$> survey_segment s).

(** Modelled from the spec: utils/datetime is not part of these files.
    [formatDateFields(x, ZSegment)] restores the date-typed fields of a segment
    that are found as strings to [Date] objects. *)
Definition formatSegmentDateFields (g : TSegment) : TSegment :=
  mkSegment (segment_id g) (segment_title g) (segment_isPrivate g)
    (segment_environmentId g) (segment_filters g)
    (reviveDate (segment_createdAt g)) (reviveDate (segment_updatedAt g))
    (segment_surveys g).

(** Modelled from the spec: survey/util is not part of these files.
    [formatSurveyDateFields] restores the date-typed fields of a survey read
    from the cache to their typed shape ("we need to manually deserialize
    them", as the comment at its call sites says). *)
Definition formatSurveyDateFields (s : TSurvey) : TSurvey :=
  mkSurvey (survey_id s) (reviveDate (survey_createdAt s))
    (reviveDate (survey_updatedAt s)) (survey_name s) (survey_type s)
    (survey_environmentId s) (survey_createdBy s) (survey_status s)
    (survey_displayOption s) (survey_recontactDays s)
    (reviveDate <$> survey_runOnDate s) (reviveDate <$> survey_closeOnDate s)
    (survey_triggers s) (survey_inlineTriggers s)
    (formatSegmentDateFields <$> survey_segment s).

(** Are all date-typed fields of the value [Date] objects? *)
Definition segmentDatesTyped (g : TSegment) : bool :=
  isDateObj (segment_createdAt g) && isDateObj (segment_updatedAt g).

Definition surveyDatesTyped (s : TSurvey) : bool :=
  isDateObj (survey_createdAt s) && isDateObj (survey_updatedAt s)
  && from_option isDateObj true (survey_runOnDate s)
  && from_option isDateObj true (survey_closeOnDate s)
  && from_option segmentDatesTyped true (survey_segment s).

(** [unstable_cache(compute, [key], { tags, revalidate })()] of next/cache, for
    a table of the cache, as the specification describes the derived-result
    cache: a hit returns the stored entry; a miss runs [compute], stores the
    JSON form of its result and returns the result; a throwing [compute] stores
    nothing.  Expiry and eviction by tag are events between calls: they remove
    entries from the table. *)
Definition unstable_cache {V} (table : Cache → gmap string V)
    (setTable : gmap string V → Cache → Cache) (json : V → V)
    (compute : M V) (key : string) : M V :=
  λ w,
    match table (cache w) !! key with
    | Some v => (Ok v, w)
    | None =>
        match compute w with
        | (Ok v, w') =>
            (Ok v, mkWorld (store w') (setTable (<[key := json v]> (table (cache w'))) (cache w')))
        | (Err e, w') => (Err e, w')
        end
    end.

Definition setCacheSurvey (t : gmap string (option TSurvey)) (c : Cache) : Cache :=
  mkCache t (cache_surveys c) (cache_verdict c).
Definition setCacheSurveys (t : gmap string (list TSurvey)) (c : Cache) : Cache :=
  mkCache (cache_survey c) t (cache_verdict c).
Definition setCacheVerdict (t : gmap string bool) (c : Cache) : Cache :=
  mkCache (cache_survey c) (cache_surveys c) t.

Definition cachedSurvey : M (option TSurvey) → string → M (option TSurvey) :=
  unstable_cache cache_survey setCacheSurvey (fmap jsonSurvey).
Definition cachedSurveys : M (list TSurvey) → string → M (list TSurvey) :=
  unstable_cache cache_surveys setCacheSurveys (fmap jsonSurvey).
Definition cachedVerdict : M bool → string → M bool :=
  unstable_cache cache_verdict setCacheVerdict (λ b, b).

(** [Array.from(new Set(xs))]: the distinct elements, in the order of their
    first occurrence. *)
Definition arrayFromSet (xs : list string) : list string :=
  reverse (remove_dups (reverse xs)).

Definition modifyCache (f : Cache → Cache) : M unit :=
  λ w, (Ok tt, mkWorld (store w) (f (cache w))).

(** [`${n}`] for an optional number *)
Definition showOptional (o : option nat) : string :=
  from_option pretty "undefined" o.

(** [n ? n : undefined] *)
Definition truthyNumber (o : option nat) : option nat :=
  match o with Some (S n) => Some (S n) | _ => None end.

(** ** The survey service *)
Section SurveyService.
Context `{Collaborators}.

(** Modelled from the spec: the action-class, product, person, display and
    action services are not part of these files; they are reads of the store
    ("Transactional Store Adapter").  A missing product or person is [null]; a
    person's displays and actions are lists. *)
Definition getActionClasses (environmentId : string) : M (list TActionClass) :=
  st ← getStore;
  mret (filter (λ ac, actionClass_environmentId ac = environmentId)
          (store_actionClasses st)).

Definition getProductByEnvironmentId (environmentId : string) : M (option TProduct) :=
  st ← getStore; mret (store_products st !! environmentId).

Definition getPerson (personId : string) : M (option TPerson) :=
  st ← getStore; mret (store_people st !! personId).

Definition getDisplaysByPersonId (personId : string) : M (list TDisplay) :=
  st ← getStore; mret (default [] (store_displays st !! personId)).

Definition getActionsByPersonId (personId : string) : M (list TAction) :=
  st ← getStore; mret (default [] (store_actions st !! personId)).

(** [{ ...surveyPrisma, triggers: names, segment }] *)
Definition transformPrismaSurvey (surveyPrisma : PrismaSurvey) : TSurvey :=
  withTriggersAndSegment surveyPrisma
    (actionClass_name <$> survey_triggers surveyPrisma)
    (survey_segment surveyPrisma).

Definition getActionClassIdFromName (actionClasses : list TActionClass)
    (actionClassName : string) : result string :=
  match head (filter (λ ac, actionClass_name ac = actionClassName) actionClasses) with
  | Some ac => Ok (actionClass_id ac)
  | None => Err (TypeError "Cannot read properties of undefined (reading 'id')")
  end.

Definition revalidateSurveyByActionClassName (actionClasses : list TActionClass)
    (actionClassNames : list string) : M unit :=
  mapM_ (λ actionClassName,
           actionClassId ← liftR (getActionClassIdFromName actionClasses actionClassName);
           modifyCache (surveyCache_revalidate
                          (mkRevalidate None None None (Some actionClassId))))
        actionClassNames.

Definition processTriggerUpdates (triggers currentSurveyTriggers : list string)
    (actionClasses : list TActionClass) : M TriggerUpdate :=
  let newTriggers :=
    filter (λ trigger, ¬ (trigger = "" ∨ trigger ∈ currentSurveyTriggers)) triggers in
  let removedTriggers :=
    filter (λ trigger, trigger ∉ triggers) currentSurveyTriggers in
  create ← (if bool_decide (0 < length newTriggers)%nat
            then liftR (Some <$> mapMr (getActionClassIdFromName actionClasses) newTriggers)
            else mret None);
  deleteMany ← (if bool_decide (0 < length removedTriggers)%nat
                then liftR (Some <$> mapMr (getActionClassIdFromName actionClasses)
                                       removedTriggers)
                else mret None);
  revalidateSurveyByActionClassName actionClasses (newTriggers ++ removedTriggers);;
  mret (mkTriggerUpdate create deleteMany).

Definition getSurvey (surveyId : string) : M (option TSurvey) :=
  survey ← cachedSurvey
    (liftR (validateInputs [ZId surveyId]);;
     st ← getStore;
     match head (filter (λ row, survey_id row = surveyId) (store_surveys st)) with
     | None => mret None
     | Some surveyPrisma =>
         mret (Some (withTriggersAndSegment surveyPrisma
                       (actionClass_name <$> survey_triggers surveyPrisma)
                       (formatSegmentDateFields <$> survey_segment surveyPrisma)))
     end)
    ("getSurvey-" +:+ surveyId);
  mret (formatSurveyDateFields <$> survey).

Definition getSurveysByActionClassId (actionClassId : string) (page : option nat)
    : M (list TSurvey) :=
  surveys ← cachedSurveys
    (liftR (validateInputs [ZId actionClassId]);;
     st ← getStore;
     let matching :=
       filter (λ row, Exists (λ ac, actionClass_id ac = actionClassId)
                        (survey_triggers row))
              (store_surveys st) in
     let surveysPrisma :=
       match truthyNumber page with
       | Some page => take ITEMS_PER_PAGE (drop (ITEMS_PER_PAGE * (page - 1))%nat matching)
       | None => matching
       end in
     mret (transformPrismaSurvey <$> surveysPrisma))
    ("getSurveysByActionClassId-" +:+ actionClassId +:+ "-" +:+ showOptional page);
  mret (formatSurveyDateFields <$> surveys).

Definition getSurveys (environmentId : string) (limit offset : option nat)
    (filterCriteria : option TSurveyFilterCriteria) : M (list TSurvey) :=
  surveys ← cachedSurveys
    (liftR (validateInputs [ZId environmentId]);;
     st ← getStore;
     let matching :=
       buildOrderByClause filterCriteria
         (filter (λ row, survey_environmentId row = environmentId
                          ∧ buildWhereClause filterCriteria row = true)
                 (store_surveys st)) in
     let skipped := from_option (λ k, drop k matching) matching (truthyNumber offset) in
     let surveysPrisma := from_option (λ n, take n skipped) skipped (truthyNumber limit) in
     mret (transformPrismaSurvey <$> surveysPrisma))
    ("getSurveys-" +:+ environmentId +:+ "-" +:+ showOptional limit +:+ "-"
       +:+ showOptional offset +:+ "-" +:+ stringifyFilterCriteria filterCriteria);
  mret (formatSurveyDateFields <$> surveys).

Definition getSurveysBySegmentId (segmentId : string) : M (list TSurvey) :=
  surveys ← cachedSurveys
    (st ← getStore;
     let surveysPrisma :=
       filter (λ row, segment_id <$> survey_segment row = Some segmentId)
              (store_surveys st) in
     mret (transformPrismaSurvey <$> surveysPrisma))
    ("getSurveysBySegmentId-" +:+ segmentId);
  mret surveys.

(** *** [updateSurvey] *)

(** "Remove scheduled status when runOnDate is not set" *)
Definition removeScheduledWithoutRunOnDate (data : SurveyUpdateData) : SurveyUpdateData :=
  if bool_decide (data_status data = "scheduled")
     && bool_decide (data_runOnDate data = None)
  then withStatus "inProgress" data
  else data.

(** [runOnDate && runOnDate > new Date()]: a string never compares greater
    than a [Date]. *)
Definition runOnDateInFuture (now : Z) (runOnDate : option TDate) : bool :=
  match runOnDate with
  | Some (DateObj ms) => bool_decide (now < ms)%Z
  | Some (DateStr _) => false
  | None => false
  end.

(** "Set scheduled status when runOnDate is set and in the future on
    completed surveys" *)
Definition scheduleWhenRunOnDateInFuture (now : Z) (data : SurveyUpdateData)
    : SurveyUpdateData :=
  if (bool_decide (data_status data = "completed")
      || bool_decide (data_status data = "paused")
      || bool_decide (data_status data = "inProgress"))
     && runOnDateInFuture now (data_runOnDate data)
  then withStatus "scheduled" data
  else data.

(** The row [prisma.survey.update] leaves behind: the scalar fields of
    [data], the triggers without the deleted and with the created ones, the
    environment and the segment as they were. *)
Definition applyUpdateData (actionClasses : list TActionClass)
    (data : SurveyUpdateData) (row : PrismaSurvey) : PrismaSurvey :=
  let kept :=
    filter (λ ac, actionClass_id ac ∉ default [] (tu_deleteMany (data_triggers data)))
           (survey_triggers row) in
  let created :=
    omap (λ acId, head (filter (λ ac, actionClass_id ac = acId) actionClasses))
         (default [] (tu_create (data_triggers data))) in
  mkSurvey (survey_id row) (data_createdAt data) (data_updatedAt data)
    (data_name data) (data_type data) (survey_environmentId row)
    (data_createdBy data) (data_status data) (data_displayOption data)
    (data_recontactDays data) (data_runOnDate data) (data_closeOnDate data)
    (kept ++ created) (data_inlineTriggers data) (survey_segment row).

(** [prisma.survey.update({ where: { id }, data, select: selectSurvey })]:
    throws when no row has the id. *)
Definition prisma_survey_update (surveyId : string) (data : SurveyUpdateData)
    : M PrismaSurvey :=
  λ w,
    let st := store w in
    match head (filter (λ row, survey_id row = surveyId) (store_surveys st)) with
    | None => (Err (RecordNotFound "Survey"), w)
    | Some row =>
        let row' := applyUpdateData (store_actionClasses st) data row in
        (Ok row',
         mkWorld
           (mkStore
              ((λ r, if bool_decide (survey_id r = surveyId) then row' else r)
                 <$> store_surveys st)
              (store_products st) (store_people st) (store_displays st)
              (store_actions st) (store_actionClasses st) (store_responseNotes st))
           (cache w))
    end.

(** [catch (error) { if (error instanceof Prisma.PrismaClientKnownRequestError)
    throw new DatabaseError(error.message); throw error; }] *)
Definition wrapKnownRequestError {A} (m : M A) : M A :=
  λ w, match m w with
       | (Err (RecordNotFound model), w') =>
           (Err (DatabaseError ("Record to update not found: " +:+ model)), w')
       | other => other
       end.

(** [try { await m } catch (error) { throw e }] *)
Definition rethrowAs {A} (e : error) (m : M A) : M A :=
  λ w, match m w with
       | (Ok a, w') => (Ok a, w')
       | (Err _, w') => (Err e, w')
       end.

(** The language and question bindings of the survey travel in the same
    [data] object; they do not touch [status] or [runOnDate] and are not part
    of this model. *)
Definition updateSurvey (now : Z) (updatedSurvey : TSurvey) : M TSurvey :=
  liftR (validateInputs [ZSurveyWithRefinements updatedSurvey]);;
  let surveyId := survey_id updatedSurvey in
  actionClasses ← getActionClasses (survey_environmentId updatedSurvey);
  currentSurvey ← getSurvey surveyId;
  match currentSurvey with
  | None => throw (ResourceNotFoundError "Survey" surveyId)
  | Some currentSurvey =>
      triggers ← processTriggerUpdates (survey_triggers updatedSurvey)
                   (survey_triggers currentSurvey) actionClasses;
      match survey_segment updatedSurvey with
      | Some segment =>
          if ZSegmentFilters (segment_filters segment)
          then rethrowAs (GenericError "Error updating survey")
                 (updateSegment (segment_id segment) segment)
          else throw (InvalidInputError "Invalid user segment filters")
      | None => mret tt
      end;;
      let data :=
        mkUpdateData (survey_createdAt updatedSurvey) (survey_updatedAt updatedSurvey)
          (survey_name updatedSurvey) (survey_type updatedSurvey)
          (survey_createdBy updatedSurvey) (survey_status updatedSurvey)
          (survey_displayOption updatedSurvey) (survey_recontactDays updatedSurvey)
          (survey_runOnDate updatedSurvey) (survey_closeOnDate updatedSurvey)
          (survey_inlineTriggers updatedSurvey) triggers in
      let data := removeScheduledWithoutRunOnDate data in
      let data := scheduleWhenRunOnDateInFuture now data in
      prismaSurvey ← wrapKnownRequestError (prisma_survey_update surveyId data);
      let modifiedSurvey : TSurvey :=
        withTriggersAndSegment prismaSurvey (survey_triggers updatedSurvey)
          (survey_segment prismaSurvey) in
      modifyCache (surveyCache_revalidate
                     (mkRevalidate (Some (survey_id modifiedSurvey))
                        (Some (survey_environmentId modifiedSurvey))
                        (segment_id <$> survey_segment modifiedSurvey) None));;
      mret modifiedSurvey
  end.

(** *** [createSurvey] *)

Definition withoutCreatedBy (b : TSurveyInput) : TSurveyInput :=
  mkSurveyInput (input_name b) (input_type b) None (input_status b)
    (input_displayOption b) (input_recontactDays b) (input_runOnDate b)
    (input_closeOnDate b) (input_thankYouCard b) (input_triggers b)
    (input_inlineTriggers b).

Definition withThankYouCard (card : option TThankYouCard) (b : TSurveyInput)
    : TSurveyInput :=
  mkSurveyInput (input_name b) (input_type b) (input_createdBy b) (input_status b)
    (input_displayOption b) (input_recontactDays b) (input_runOnDate b)
    (input_closeOnDate b) card (input_triggers b) (input_inlineTriggers b).

Definition createSurvey (environmentId : string) (surveyBody : TSurveyInput)
    : M TSurvey :=
  liftR (validateInputs [ZId environmentId]);;
  if bool_decide (is_Some (input_triggers surveyBody))
     && bool_decide (is_Some (input_inlineTriggers surveyBody))
  then throw (InvalidInputError "Survey body cannot have both triggers and inlineTriggers")
  else
      match input_triggers surveyBody with
      | Some triggers =>
          actionClasses ← getActionClasses environmentId;
          revalidateSurveyByActionClassName actionClasses triggers
      | None => mret tt
      end;;
      let createdBy := input_createdBy surveyBody in
      let surveyBody := withoutCreatedBy surveyBody in
      triggers ← match input_triggers surveyBody with
                 | Some triggers =>
                     actionClasses ← getActionClasses environmentId;
                     Some <$> processTriggerUpdates triggers [] actionClasses
                 | None => mret None
                 end;
      let body :=
        match input_thankYouCard surveyBody with
        | Some card =>
            if bool_decide (input_type surveyBody = Some "web")
            then withThankYouCard
                   (Some (mkThankYouCard (thankYouCard_enabled card) None None))
                   surveyBody
            else surveyBody
        | None => surveyBody
        end in
      let creator := if truthyOptString createdBy then createdBy else None in
      survey ← (λ w,
                  match prisma_survey_create
                          (mkCreateData body triggers creator environmentId) (store w) with
                  | Ok (row, st') => (Ok row, mkWorld st' (cache w))
                  | Err e => (Err e, w)
                  end);
      let transformedSurvey : TSurvey :=
        withTriggersAndSegment survey (actionClass_name <$> survey_triggers survey) None in
      subscribeTeamMembersToSurveyResponses environmentId (survey_id survey);;
      modifyCache (surveyCache_revalidate
                     (mkRevalidate (Some (survey_id survey))
                        (Some (survey_environmentId survey)) None None));;
      mret transformedSurvey.

(** *** [getSyncSurveys]: the eligibility pipeline *)

(** "filtered surveys for running and web" *)
Definition keepRunningWebSurveys (surveys : list TSurvey) : list TSurvey :=
  filter (λ survey, survey_status survey = "inProgress" ∧ survey_type survey = "web")
         surveys.

(** "filter surveys that meet the displayOption criteria": the callback. *)
Definition meetsDisplayOption (displays : list TDisplay) (survey : TSurvey)
    : result bool :=
  if bool_decide (survey_displayOption survey = "respondMultiple") then Ok true
  else if bool_decide (survey_displayOption survey = "displayOnce") then
    Ok (bool_decide
          (length (filter (λ display, display_surveyId display = survey_id survey)
                     displays) = 0%nat))
  else if bool_decide (survey_displayOption survey = "displayMultiple") then
    Ok (bool_decide
          (length (filter (λ display, display_surveyId display = survey_id survey
                                       ∧ display_responseId display ≠ None)
                     displays) = 0%nat))
  else Err (GenericError "Invalid displayOption").

(** "filter surveys that meet the recontactDays criteria": the callback. *)
Definition meetsRecontactDays (now : Z) (product : TProduct)
    (displays : list TDisplay) (survey : TSurvey) : bool :=
  match head displays with
  | None => true
  | Some latestDisplay =>
      match survey_recontactDays survey with
      | Some recontactDays =>
          match head (filter (λ display, display_surveyId display = survey_id survey)
                        displays) with
          | None => true
          | Some lastDisplaySurvey =>
              bool_decide
                (recontactDays
                 ≤ diffInDays now (dateValue (display_createdAt lastDisplaySurvey)))%Z
          end
      | None =>
          match product_recontactDays product with
          | Some recontactDays =>
              bool_decide
                (recontactDays
                 ≤ diffInDays now (dateValue (display_createdAt latestDisplay)))%Z
          | None => true
          end
      end
  end.

(** The callback of [attributeFilters.every(...)]. *)
Definition meetsAttributeFilter (person : TPerson)
    (attributeFilter : TSurveyAttributeFilter) : bool :=
  match person_attributes person ≫= (.!! attributeClassName attributeFilter) with
  | None => false
  | Some personAttributeValue =>
      if negb (truthyAttr personAttributeValue) then false
      else if bool_decide (operator attributeFilter = "equals") then
        attrStrictEquals personAttributeValue (value attributeFilter)
      else if bool_decide (operator attributeFilter = "notEquals") then
        negb (attrStrictEquals personAttributeValue (value attributeFilter))
      else false
  end.

(** The legacy branch of the segment stage: [null] drops the survey. *)
Definition evaluateLegacySegment (person : TPerson) (survey : TSurvey)
    (segment : TSegment) : option TSurvey :=
  match transformSegmentFiltersToAttributeFilters (segment_filters segment) with
  | None => None
  | Some attributeFilters =>
      if bool_decide (length attributeFilters = 0%nat) then Some survey
      else if forallb (meetsAttributeFilter person) attributeFilters
           then Some survey else None
  end.

(** The callback of [surveys.map(async (survey) => ...)]. *)
Definition evaluateSurveySegment (environmentId : string) (person : TPerson)
    (personActionClassIds : list string) (personUserId : TAttributeValue)
    (deviceType : string) (version : option string) (survey : TSurvey)
    : result (option TSurvey) :=
  match survey_segment survey with
  | None => Ok (Some survey)
  | Some segment =>
      if negb (truthyOptString version)
      then Ok (evaluateLegacySegment person survey segment)
      else
        result ← evaluateSegment
                   (mkUserData (default ∅ (person_attributes person))
                      personActionClassIds deviceType environmentId
                      (person_id person) personUserId)
                   (segment_filters segment);
        Ok (if result : bool then Some survey else None)
  end.

(** The segment stage: [Promise.all] of the callbacks, then the [null]s are
    filtered out. *)
Definition segmentStage (environmentId : string) (person : TPerson)
    (personActionClassIds : list string) (personUserId : TAttributeValue)
    (deviceType : string) (version : option string) (surveys : list TSurvey)
    : result (list TSurvey) :=
  mapMr (evaluateSurveySegment environmentId person personActionClassIds
           personUserId deviceType version) surveys
  ≫= λ resolvedSurveys : list (option TSurvey),
       Ok (omap (λ survey, survey) resolvedSurveys).

Definition getSyncSurveys (now : Z) (environmentId personId deviceType : string)
    (version : option string) : M (list TSurvey) :=
  liftR (validateInputs [ZId environmentId]);;
  surveys ← cachedSurveys
    (product ← getProductByEnvironmentId environmentId;
     match product with
     | None => throw (GenericError "Product not found")
     | Some product =>
         person ← (if bool_decide (personId = "legacy")
                   then mret (Some (mkPerson "legacy" None None))
                   else getPerson personId);
         match person with
         | None => throw (GenericError "Person not found")
         | Some person =>
             surveys ← getSurveys environmentId None None None;
             let surveys := keepRunningWebSurveys surveys in
             if bool_decide (length surveys = 0%nat) then mret []
             else
               displays ← getDisplaysByPersonId (person_id person);
               surveys ← liftR (filterM (meetsDisplayOption displays) surveys);
               let surveys := filter (λ survey, meetsRecontactDays now product displays
                                                  survey = true) surveys in
               if bool_decide (length surveys = 0%nat) then mret []
               else if negb (anySurveyHasFilters surveys) then mret surveys
               else
                 personActions ← getActionsByPersonId (person_id person);
                 let personActionClassIds :=
                   arrayFromSet
                     ((λ action, from_option actionClass_id "" (action_actionClass action))
                        <$> personActions) in
                 let personUserId :=
                   match person_userId person with
                   | Some userId => AttrString userId
                   | None =>
                       default (AttrString "")
                         (person_attributes person ≫= (.!! "userId"))
                   end in
                 liftR (segmentStage environmentId person personActionClassIds
                          personUserId deviceType version surveys)
         end
     end)
    ("getSyncSurveys-" +:+ environmentId +:+ "-" +:+ personId);
  mret (formatSurveyDateFields <$> surveys).

End SurveyService.

(** ** Response-note authorisation *)
Section ResponseNoteAuth.
Context `{Collaborators}.






End ResponseNoteAuth.

(** ** A concrete instance of the collaborators and sample data

    Used to run the embedding on concrete inputs. *)
Module Sample.

Fixpoint flatAttributeFilters (filters : list TFilterNode)
    : option (list TSurveyAttributeFilter) :=
  match filters with
  | [] => Some []
  | FilterLeaf (Some ConnOr) _ _ _ :: _ => None
  | FilterLeaf _ (RootAttribute name) op v :: rest =>
      cons (mkAttributeFilter name op v) <$> flatAttributeFilters rest
  | _ => None
  end.

Definition newRow (data : SurveyCreateData) : PrismaSurvey :=
  let body := create_body data in
  mkSurvey "survey-new" (DateObj 0) (DateObj 0) (default "" (input_name body))
    (default "web" (input_type body)) (create_environment data) (create_creator data)
    (default "draft" (input_status body))
    (default "displayOnce" (input_displayOption body)) (input_recontactDays body)
    (input_runOnDate body) (input_closeOnDate body) [] (input_inlineTriggers body) None.

#[export] Instance collaborators : Collaborators := {|
  ZId := truthyString;
  ZSurveyWithRefinements := λ _, true;
  ZSegmentFilters := λ _, true;
  ITEMS_PER_PAGE := 12;
  TSurveyFilterCriteria := unit;
  buildWhereClause := λ _ _, true;
  buildOrderByClause := λ _ rows, rows;
  stringifyFilterCriteria := λ _, "undefined";
  diffInDays := λ date1 date2, (Z.abs (date2 - date1) / 86400000)%Z;
  transformSegmentFiltersToAttributeFilters := flatAttributeFilters;
  anySurveyHasFilters :=
    existsb (λ s : TSurvey,
               match survey_segment s with
               | Some g => negb (bool_decide (segment_filters g = []))
               | None => false
               end);
  evaluateSegment := λ _ _, Ok true;
  updateSegment := λ _ _, mret tt;
  subscribeTeamMembersToSurveyResponses := λ _ _, mret tt;
  surveyCache_revalidate := λ _ c, mkCache ∅ ∅ (cache_verdict c);
  prisma_survey_create := λ data st,
    Ok (newRow data,
        mkStore (store_surveys st ++ [newRow data]) (store_products st)
          (store_people st) (store_displays st) (store_actions st)
          (store_actionClasses st) (store_responseNotes st));
|}.

Definition day : Z := 86400000.

Definition survey (id type status displayOption : string) (recontactDays : option Z)
    (segment : option TSegment) : TSurvey :=
  mkSurvey id (DateObj 0) (DateObj 0) id type "env1" None status displayOption
    recontactDays None None [] None segment.

Definition display (surveyId : string) (responseId : option string) (at_ : Z)
    : TDisplay :=
  mkDisplay ("d-" +:+ surveyId) surveyId responseId (DateObj at_).

Definition segment (filters : TBaseFilters) : TSegment :=
  mkSegment "seg1" "s1" true "env1" filters (DateObj 0) (DateObj 0) ["s1"].

Definition person (attributes : list (string * TAttributeValue)) : TPerson :=
  mkPerson "p1" (Some "u1") (Some (list_to_map attributes)).

Definition row (id status : string) (runOnDate : option TDate)
    (segment : option TSegment) : PrismaSurvey :=
  mkSurvey id (DateObj 0) (DateObj 0) id "web" "env1" None status "displayOnce"
    None runOnDate None [] None segment.

Definition world : World :=
  mkWorld
    (mkStore
       [row "s1" "scheduled" (Some (DateObj (5 * day))) (Some (segment []));
        row "s2" "draft" None None]
       {[ "env1" := mkProduct "prod1" None ]}
       {[ "p1" := person [("plan", AttrString "pro")] ]}
       ∅ ∅
       [mkActionClass "ac1" "signup" "env1"]
       {[ "n1" := mkResponseNote "n1" "a note" (mkUser "u1" "Ada") ]})
    (mkCache ∅ ∅ ∅).

(** A store for the eligibility pipeline: five surveys of environment "env1"
    and a person who saw "once" twelve days ago and "recent" two days ago. *)
Definition pipelineRow (id type status displayOption : string)
    (recontactDays : option Z) (segment : option TSegment) : PrismaSurvey :=
  mkSurvey id (DateObj 0) (DateObj 0) id type "env1" None status displayOption
    recontactDays None None [] None segment.

Definition pipelineWorld : World :=
  mkWorld
    (mkStore
       [pipelineRow "once" "web" "inProgress" "displayOnce" None None;
        pipelineRow "recent" "web" "inProgress" "respondMultiple" (Some 7) None;
        pipelineRow "pro-only" "web" "inProgress" "respondMultiple" None
          (Some (segment [FilterLeaf None (RootAttribute "plan") "equals" "pro"]));
        pipelineRow "free-only" "web" "inProgress" "respondMultiple" None
          (Some (segment [FilterLeaf None (RootAttribute "plan") "equals" "free"]));
        pipelineRow "link" "link" "inProgress" "respondMultiple" None None;
        pipelineRow "paused" "web" "paused" "respondMultiple" None None]
       {[ "env1" := mkProduct "prod1" (Some 1) ]}
       {[ "p1" := person [("plan", AttrString "pro")] ]}
       {[ "p1" := [display "recent" None (18 * day); display "once" None (8 * day)] ]}
       ∅ [] ∅)
    (mkCache ∅ ∅ ∅).

End Sample.

(** ** Notions of the specification

    Stated in the words of the specification, to be compared with what the
    code computes. *)




(** ** Further parts of the sources *)

(** *** The language bindings of [updateSurvey]

    The block [if (languages) { ... }] of [updateSurvey] computes the nested
    write [data.languages] from the languages of the current survey and those
    of the updated one. *)

Record TLanguage : Type := mkLanguage {
  language_id : string;
  language_code : string;
}.

Record TSurveyLanguage : Type := mkSurveyLanguage {
  surveyLanguage_language : TLanguage;
  surveyLanguage_default : bool;
  surveyLanguage_enabled : bool;
}.

(** One entry of [updateMany] or [create]: [{ languageId, default, enabled }]. *)
Record LanguageWrite : Type := mkLanguageWrite {
  write_languageId : string;
  write_default : bool;
  write_enabled : bool;
}.

(** One entry of [deleteMany]: [{ languageId, enabled }]. *)
Record LanguageDelete : Type := mkLanguageDelete {
  delete_languageId : string;
  delete_enabled : bool;
}.

Record LanguagesUpdate : Type := mkLanguagesUpdate {
  languages_updateMany : list LanguageWrite;
  languages_create : option (list LanguageWrite);
  languages_deleteMany : option (list LanguageDelete);
}.

Definition surveyLanguageId (l : TSurveyLanguage) : string :=
  language_id (surveyLanguage_language l).

Definition currentLanguageIds (currentLanguages : list TSurveyLanguage) : list string :=
  surveyLanguageId <$> currentLanguages.

(** [languages.length > 1 ? languages.map((l) => l.language.id) : []] *)
Definition updatedLanguageIds (languages : list TSurveyLanguage) : list string :=
  if bool_decide (1 < length languages)%nat then surveyLanguageId <$> languages else [].

(** [languages.map((language) => { if (language.enabled) return language.language.id; })]:
    the entries of disabled languages are [undefined]. *)
Definition enabledLanguageIds (languages : list TSurveyLanguage) : list (option string) :=
  (λ l, if surveyLanguage_enabled l then Some (surveyLanguageId l) else None) <$> languages.

Definition languagesToAdd (currentLanguages languages : list TSurveyLanguage) : list string :=
  filter (λ id, id ∉ currentLanguageIds currentLanguages) (updatedLanguageIds languages).

Definition languagesToRemove (currentLanguages languages : list TSurveyLanguage)
    : list string :=
  filter (λ id, id ∉ updatedLanguageIds languages) (currentLanguageIds currentLanguages).

(** [languages.find((l) => l.default)?.language.id] *)
Definition defaultLanguageId (languages : list TSurveyLanguage) : option string :=
  surveyLanguageId <$> head (filter (λ l, surveyLanguage_default l = true) languages).

Definition languagesUpdate (currentLanguages languages : list TSurveyLanguage)
    : LanguagesUpdate :=
  let enabled := enabledLanguageIds languages in
  let default := defaultLanguageId languages in
  let toAdd := languagesToAdd currentLanguages languages in
  let toRemove := languagesToRemove currentLanguages languages in
  mkLanguagesUpdate
    ((λ surveyLanguage,
        mkLanguageWrite (surveyLanguageId surveyLanguage)
          (bool_decide (Some (surveyLanguageId surveyLanguage) = default))
          (bool_decide (Some (surveyLanguageId surveyLanguage) ∈ enabled)))
       <$> currentLanguages)
    (if bool_decide (0 < length toAdd)%nat
     then Some ((λ languageId,
                   mkLanguageWrite languageId
                     (bool_decide (Some languageId = default))
                     (bool_decide (Some languageId ∈ enabled))) <$> toAdd)
     else None)
    (if bool_decide (0 < length toRemove)%nat
     then Some ((λ languageId,
                   mkLanguageDelete languageId (bool_decide (Some languageId ∈ enabled)))
                  <$> toRemove)
     else None).

(** *** [canUserResolveResponseNote] *)

Record TResponse : Type := mkResponse {
  response_id : string;
  response_surveyId : string;
  response_notes : list TResponseNote;
}.

(** The response service and the response authorisation, which the
    response-note authorisation imports. *)
Class ResponseCollaborators : Type := {
  getResponse : string → M (option TResponse);
  canUserAccessResponse : string → string → M bool;
}.

Section ResponseNoteResolve.
Context `{Collaborators} `{ResponseCollaborators}.

(** The function [unstable_cache] memoises. *)
Definition canUserResolveResponseNote_compute (userId responseId responseNoteId : string)
    : M bool :=
  liftR (validateInputs [ZId userId; ZId responseNoteId]);;
  if negb (truthyString userId) || negb (truthyString responseId)
     || negb (truthyString responseNoteId)
  then mret false
  else
    response ← getResponse responseId;
    let noteExistsOnResponse :=
      existsb (λ note, bool_decide (responseNote_id note = responseNoteId))
              (from_option response_notes [] response) in
    if negb noteExistsOnResponse then mret false
    else canUserAccessResponse userId responseId.

Definition canUserResolveResponseNote_key (userId responseNoteId : string) : string :=
  "canUserResolveResponseNote-" +:+ userId +:+ "-" +:+ responseNoteId.

Definition canUserResolveResponseNote (userId responseId responseNoteId : string)
    : M bool :=
  cachedVerdict (canUserResolveResponseNote_compute userId responseId responseNoteId)
    (canUserResolveResponseNote_key userId responseNoteId).

End ResponseNoteResolve.

(** A concrete response service, for running the embedding. *)
Module SampleResponses.

Definition responses : gmap string TResponse :=
  {[ "r1" := mkResponse "r1" "s1"
               [mkResponseNote "n1" "a note" (mkUser "u1" "Ada");
                mkResponseNote "n2" "another" (mkUser "u2" "Bob")];
     "r2" := mkResponse "r2" "s1" [] ]}.

#[export] Instance collaborators : ResponseCollaborators := {|
  getResponse := λ responseId, mret (responses !! responseId);
  canUserAccessResponse := λ userId _, mret (bool_decide (userId = "u1"));
|}.

End SampleResponses.

(** * Properties *)

(** ** Generic facts about the error monad *)

Lemma filterM_Ok_elem_of {A} (f : A → result bool) (l kept : list A) (x : A) :
  filterM f l = Ok kept → (x ∈ kept ↔ x ∈ l ∧ f x = Ok true).
Proof.
  revert kept. induction l as [|y l IH]; intros kept Hk; simpl in Hk.
  - injection Hk as <-. split; [intros Hx | intros [Hx _]]; by apply elem_of_nil in Hx.
  - unfold mbind, result_bind in Hk.
    destruct (f y) as [b|e] eqn:Hy; [|discriminate].
    destruct (filterM f l) as [rest|e] eqn:Hrest; [|discriminate].
    injection Hk as <-. specialize (IH rest eq_refl).
    destruct b; rewrite !elem_of_cons, IH; split.
    + intros [->|[? ?]]; auto.
    + intros [[->|?] ?]; auto.
    + intros [? ?]; auto.
    + intros [[->|?] ?]; [congruence|auto].
Qed.


Lemma length_filter_zero {A} (P : A → Prop) `{∀ x, Decision (P x)} (l : list A) :
  length (filter P l) = 0%nat ↔ ∀ x, x ∈ l → ¬ P x.
Proof.
  rewrite length_zero_iff_nil. split.
  - intros Hnil x Hx HP. by eapply filter_nil_not_elem_of.
  - intros Hall. induction l as [|y l IH]; [done|].
    rewrite filter_cons_False by (apply Hall; left).
    apply IH. intros x Hx. apply Hall. by right.
Qed.

(** ** The eligibility pipeline *)
Section PipelineProperties.
Context `{Collaborators}.


(** C3 (as amended). The first stage keeps exactly the surveys whose status
    is "inProgress" and whose type is "web". *)
Theorem keepRunningWebSurveys_spec (surveys : list TSurvey) (survey : TSurvey) :
  survey ∈ keepRunningWebSurveys surveys ↔
    survey ∈ surveys ∧ survey_status survey = "inProgress" ∧ survey_type survey = "web".
Proof.
  unfold keepRunningWebSurveys. rewrite list_elem_of_filter. tauto.
Qed.




(** *** The legacy segment stage *)

Lemma mapMr_pure {A B} (g : A → B) (f : A → result B) (l : list A) :
  (∀ x, f x = Ok (g x)) → mapMr f l = Ok (g <$> l).
Proof.
  intros Hf. induction l as [|x l IH]; [done|].
  simpl. rewrite Hf, IH. done.
Qed.

Lemma evaluateSurveySegment_legacy environmentId person personActionClassIds
    personUserId deviceType version survey :
  truthyOptString version = false →
  evaluateSurveySegment environmentId person personActionClassIds personUserId
    deviceType version survey
  = Ok (match survey_segment survey with
        | None => Some survey
        | Some segment => evaluateLegacySegment person survey segment
        end).
Proof.
  intros Hlegacy. unfold evaluateSurveySegment.
  destruct (survey_segment survey); [|done]. by rewrite Hlegacy.
Qed.

Lemma evaluateLegacySegment_Some person survey segment kept :
  evaluateLegacySegment person survey segment = Some kept → kept = survey.
Proof.
  unfold evaluateLegacySegment.
  destruct (transformSegmentFiltersToAttributeFilters _); [|done].
  case_bool_decide; [congruence|]. destruct (forallb _ _); congruence.
Qed.

Lemma segmentStage_legacy_excludes environmentId person personActionClassIds
    personUserId deviceType version surveys survey kept :
  truthyOptString version = false →
  evaluateSurveySegment environmentId person personActionClassIds personUserId
    deviceType version survey = Ok None →
  segmentStage environmentId person personActionClassIds personUserId
    deviceType version surveys = Ok kept →
  survey ∉ kept.
Proof.
  intros Hlegacy Hnone. unfold segmentStage.
  rewrite (mapMr_pure _ _ _
             (λ s, evaluateSurveySegment_legacy environmentId person
                     personActionClassIds personUserId deviceType version s Hlegacy)).
  simpl. intros [= <-]. rewrite list_elem_of_omap. intros (x & Hx & Hsome).
  apply list_elem_of_fmap in Hx as (y & -> & _).
  rewrite evaluateSurveySegment_legacy in Hnone by done.
  assert (y = survey) as ->.
  { destruct (survey_segment y) eqn:Hseg; [|congruence].
    symmetry. by eapply evaluateLegacySegment_Some. }
  congruence.
Qed.

Lemma evaluateLegacySegment_failing_filter person survey segment attributeFilters
    attributeFilter :
  transformSegmentFiltersToAttributeFilters (segment_filters segment)
    = Some attributeFilters →
  attributeFilter ∈ attributeFilters →
  meetsAttributeFilter person attributeFilter = false →
  evaluateLegacySegment person survey segment = None.
Proof.
  intros Htransform Hin Hfails. unfold evaluateLegacySegment. rewrite Htransform.
  case_bool_decide as Hlen.
  - apply length_zero_iff_nil in Hlen. subst. by apply elem_of_nil in Hin.
  - destruct (forallb _ _) eqn:Hall; [|done].
    rewrite forallb_forall in Hall.
    apply list_elem_of_In, Hall in Hin. congruence.
Qed.

(** C4. In the legacy path (no protocol version) the segment stage never
    throws; a survey whose segment filters have no flat translation is
    dropped, and an attribute filter whose operator is neither "equals" nor
    "notEquals" evaluates to false and drops the survey. *)
Theorem legacy_segment_errors_contained environmentId person personActionClassIds
    personUserId deviceType version (surveys : list TSurvey) survey segment :
  truthyOptString version = false →
  survey_segment survey = Some segment →
  (∃ kept, segmentStage environmentId person personActionClassIds personUserId
             deviceType version surveys = Ok kept)
  ∧ (transformSegmentFiltersToAttributeFilters (segment_filters segment) = None →
       evaluateSurveySegment environmentId person personActionClassIds personUserId
         deviceType version survey = Ok None
       ∧ ∀ kept, segmentStage environmentId person personActionClassIds personUserId
                   deviceType version surveys = Ok kept → survey ∉ kept)
  ∧ (∀ attributeFilters attributeFilter,
       transformSegmentFiltersToAttributeFilters (segment_filters segment)
         = Some attributeFilters →
       attributeFilter ∈ attributeFilters →
       operator attributeFilter ≠ "equals" →
       operator attributeFilter ≠ "notEquals" →
       meetsAttributeFilter person attributeFilter = false
       ∧ evaluateSurveySegment environmentId person personActionClassIds personUserId
           deviceType version survey = Ok None
       ∧ ∀ kept, segmentStage environmentId person personActionClassIds personUserId
                   deviceType version surveys = Ok kept → survey ∉ kept).
Proof.
  intros Hlegacy Hsegment. split; [|split].
  - unfold segmentStage.
    rewrite (mapMr_pure _ _ _
               (λ s, evaluateSurveySegment_legacy environmentId person
                       personActionClassIds personUserId deviceType version s Hlegacy)).
    simpl. eauto.
  - intros Hnull.
    assert (evaluateSurveySegment environmentId person personActionClassIds
              personUserId deviceType version survey = Ok None) as Hdropped.
    { rewrite evaluateSurveySegment_legacy, Hsegment by done.
      unfold evaluateLegacySegment. by rewrite Hnull. }
    split; [done|]. intros kept. by apply segmentStage_legacy_excludes.
  - intros attributeFilters attributeFilter Htransform Hin Hne1 Hne2.
    assert (meetsAttributeFilter person attributeFilter = false) as Hfails.
    { unfold meetsAttributeFilter.
      destruct (person_attributes person ≫= _); [|done].
      destruct (negb _); [done|].
      by rewrite !bool_decide_eq_false_2. }
    assert (evaluateSurveySegment environmentId person personActionClassIds
              personUserId deviceType version survey = Ok None) as Hdropped.
    { rewrite evaluateSurveySegment_legacy, Hsegment by done. f_equal.
      by eapply evaluateLegacySegment_failing_filter. }
    repeat split; [done..|]. intros kept. by apply segmentStage_legacy_excludes.
Qed.


End PipelineProperties.


(** C3, as written, fails: a survey in progress whose type is not "web" does
    not survive the first stage. *)
Lemma keepRunning_drops_inProgress_link_survey :
  let survey := Sample.survey "s1" "link" "inProgress" "displayOnce" None None in
  survey ∈ [survey] ∧ survey_status survey = "inProgress"
  ∧ survey ∉ keepRunningWebSurveys [survey].
Proof.
  simpl. split; [by left|]. split; [done|].
  unfold keepRunningWebSurveys. rewrite list_elem_of_filter.
  intros [[_ Htype] _]. discriminate.
Qed.

Section PipelineExamples.
#[local] Existing Instance Sample.collaborators.

(** The whole pipeline on the sample store, twenty days in, legacy protocol:
    "once" was displayed, "recent" is inside its recontact window, "free-only"
    asks for another plan, "link" and "paused" do not pass the first stage. *)
Example getSyncSurveys_sample :
  match (getSyncSurveys (20 * Sample.day) "env1" "p1" "desktop" None
           Sample.pipelineWorld).1 with
  | Ok surveys => survey_id <$> surveys = ["pro-only"]
  | Err _ => False
  end.
Proof. by vm_compute. Qed.

Example arrayFromSet_sample : arrayFromSet ["b"; "a"; "b"; "c"; "a"] = ["b"; "a"; "c"].
Proof. reflexivity. Qed.


(** C4, on concrete segments: a filter with an operator the legacy path does
  not know, and a tree with no flat translation, both drop the survey
  without a throw. *)
Lemma legacy_segment_errors_contained_witness :
let person := Sample.person [("plan", AttrString "pro")] in
let unknownOperator :=
  Sample.segment [FilterLeaf None (RootAttribute "plan") "contains" "pro"] in
let untranslatable :=
  Sample.segment [FilterLeaf None (RootAction "ac1") "equals" "x"] in
let survey segment :=
  Sample.survey "s1" "web" "inProgress" "respondMultiple" None (Some segment) in
evaluateSurveySegment "env1" person [] (AttrString "u1") "desktop" None
  (survey unknownOperator) = Ok None
∧ evaluateSurveySegment "env1" person [] (AttrString "u1") "desktop" None
    (survey untranslatable) = Ok None.
Proof.
intros person unknownOperator untranslatable survey. split.
- destruct (legacy_segment_errors_contained "env1" person [] (AttrString "u1")
              "desktop" None [survey unknownOperator] (survey unknownOperator)
              unknownOperator eq_refl eq_refl) as (_ & _ & Hoperator).
  destruct (Hoperator [mkAttributeFilter "plan" "contains" "pro"]
              (mkAttributeFilter "plan" "contains" "pro") eq_refl)
    as (_ & Hdropped & _); [by left|done|done|].
  exact Hdropped.
- destruct (legacy_segment_errors_contained "env1" person [] (AttrString "u1")
              "desktop" None [survey untranslatable] (survey untranslatable)
              untranslatable eq_refl eq_refl) as (_ & Hnull & _).
  destruct (Hnull eq_refl) as [Hdropped _]. exact Hdropped.
Defined.


End PipelineExamples.

(** ** Reasoning about service code *)

Lemma M_bind_Ok {A B} (m : M A) (f : A → M B) (w w' : World) (b : B) :
  (m ≫= f) w = (Ok b, w') → ∃ a w1, m w = (Ok a, w1) ∧ f a w1 = (Ok b, w').
Proof.
  unfold mbind, M_bind. destruct (m w) as [[a|e] w1]; [eauto|discriminate].
Qed.

Lemma wrapKnownRequestError_Ok {A} (m : M A) (w w' : World) (a : A) :
  wrapKnownRequestError m w = (Ok a, w') → m w = (Ok a, w').
Proof.
  unfold wrapKnownRequestError. destruct (m w) as [[a'|e] w1]; [done|].
  by destruct e.
Qed.

Lemma modifyCache_Ok (f : Cache → Cache) (w w' : World) (u : unit) :
  modifyCache f w = (Ok u, w') → store w' = store w.
Proof. unfold modifyCache. by intros [= _ <-]. Qed.

(** ** [updateSurvey] *)
Section UpdateSurveyProperties.
Context `{Collaborators}.

Lemma removeScheduled_runOnDate data :
  data_runOnDate (removeScheduledWithoutRunOnDate data) = data_runOnDate data.
Proof. unfold removeScheduledWithoutRunOnDate. by destruct (_ && _). Qed.

Lemma scheduleWhen_runOnDate now data :
  data_runOnDate (scheduleWhenRunOnDateInFuture now data) = data_runOnDate data.
Proof. unfold scheduleWhenRunOnDateInFuture. by destruct (_ && _). Qed.

(** The two normalisation steps, on the [data] object. *)
Lemma normalized_status (now : Z) (data : SurveyUpdateData) :
  let stored := scheduleWhenRunOnDateInFuture now (removeScheduledWithoutRunOnDate data) in
  data_runOnDate stored = data_runOnDate data
  ∧ (data_status data = "scheduled" → data_runOnDate data = None →
       data_status stored = "inProgress")
  ∧ (∀ t, data_status data = "completed" ∨ data_status data = "paused"
            ∨ data_status data = "inProgress" →
          data_runOnDate data = Some (DateObj t) → (now < t)%Z →
          data_status stored = "scheduled")
  ∧ (data_status stored = "scheduled" → data_runOnDate stored ≠ None).
Proof.
  intros stored.
  assert (data_runOnDate stored = data_runOnDate data) as Hdate.
  { unfold stored. by rewrite scheduleWhen_runOnDate, removeScheduled_runOnDate. }
  split; [done|]. rewrite Hdate. unfold stored.
  unfold scheduleWhenRunOnDateInFuture.
  rewrite removeScheduled_runOnDate.
  unfold removeScheduledWithoutRunOnDate.
  split; [|split].
  - intros Hstatus Hnone. rewrite Hstatus, Hnone. done.
  - intros t Hstatus Hrun Hlt. rewrite Hrun. simpl.
    rewrite (bool_decide_eq_true_2 (now < t)%Z) by done.
    rewrite (bool_decide_eq_false_2 (data_status data = "scheduled"))
      by (destruct Hstatus as [->| [->| ->]]; done).
    simpl. destruct Hstatus as [->| [->| ->]]; done.
  - destruct (data_runOnDate data) as [runOnDate|] eqn:Hrun; [done|].
    simpl. rewrite andb_false_r.
    destruct (decide (data_status data = "scheduled")) as [Hs|Hs].
    + rewrite Hs. simpl. done.
    + rewrite (bool_decide_eq_false_2 _ Hs). simpl. done.
Qed.

Lemma prisma_survey_update_Ok surveyId data (w w' : World) (stored : PrismaSurvey) :
  prisma_survey_update surveyId data w = (Ok stored, w') →
  survey_id stored = surveyId
  ∧ survey_status stored = data_status data
  ∧ survey_runOnDate stored = data_runOnDate data
  ∧ (∀ row, row ∈ store_surveys (store w') → survey_id row = surveyId → row = stored)
  ∧ stored ∈ store_surveys (store w').
Proof.
  unfold prisma_survey_update.
  destruct (head (filter _ _)) as [row|] eqn:Hhead; [|discriminate].
  intros [= <- <-]. simpl.
  apply head_Some_elem_of, list_elem_of_filter in Hhead as [Hid Hin].
  repeat split; try done.
  - intros row' Hrow' Hid'. apply list_elem_of_fmap in Hrow' as (r & -> & _).
    repeat case_bool_decide; simpl in *; congruence.
  - apply list_elem_of_fmap. exists row. by rewrite bool_decide_eq_true_2.
Qed.

(** C6. Whenever [updateSurvey] goes through, the row it leaves in the store
    has its status normalised against the activation date: "scheduled" with
    no [runOnDate] is stored as "inProgress"; "completed", "paused" or
    "inProgress" with a [runOnDate] strictly after [now] is stored as
    "scheduled"; and no row is stored "scheduled" without a [runOnDate]. *)
Theorem updateSurvey_normalizes_status (now : Z) (updatedSurvey result : TSurvey)
    (w w' : World) :
  updateSurvey now updatedSurvey w = (Ok result, w') →
  ∃ stored,
    stored ∈ store_surveys (store w')
    ∧ survey_id stored = survey_id updatedSurvey
    ∧ (∀ row, row ∈ store_surveys (store w') →
              survey_id row = survey_id updatedSurvey → row = stored)
    ∧ survey_status result = survey_status stored
    ∧ (survey_status updatedSurvey = "scheduled" →
       survey_runOnDate updatedSurvey = None →
         survey_status stored = "inProgress")
    ∧ (∀ t, survey_status updatedSurvey = "completed"
              ∨ survey_status updatedSurvey = "paused"
              ∨ survey_status updatedSurvey = "inProgress" →
            survey_runOnDate updatedSurvey = Some (DateObj t) → (now < t)%Z →
            survey_status stored = "scheduled")
    ∧ (survey_status stored = "scheduled" → survey_runOnDate stored ≠ None).
Proof.
  intros Hrun. unfold updateSurvey in Hrun.
  apply M_bind_Ok in Hrun as (u1 & w1 & _ & Hrun).
  apply M_bind_Ok in Hrun as (actionClasses & w2 & _ & Hrun).
  apply M_bind_Ok in Hrun as ([currentSurvey|] & w3 & _ & Hrun); [|discriminate].
  apply M_bind_Ok in Hrun as (triggers & w4 & _ & Hrun).
  apply M_bind_Ok in Hrun as (u2 & w5 & _ & Hrun).
  apply M_bind_Ok in Hrun as (stored & w6 & Hupdate & Hrun).
  apply M_bind_Ok in Hrun as (u3 & w7 & Hcache & Hrun).
  injection Hrun as <- <-.
  apply modifyCache_Ok in Hcache.
  apply wrapKnownRequestError_Ok, prisma_survey_update_Ok in Hupdate
    as (Hid & Hstatus & Hdate & Huniq & Hin).
  match type of Hstatus with
  | _ = data_status (scheduleWhenRunOnDateInFuture _ (removeScheduledWithoutRunOnDate ?d)) =>
      destruct (normalized_status now d) as (Hkeep & Hsched & Hfuture & Hinv)
  end.
  exists stored. rewrite Hcache. repeat split; try done.
  - intros Hs Hn. rewrite Hstatus. by apply Hsched.
  - intros t Hs Hr Hlt. rewrite Hstatus. by apply (Hfuture t).
  - rewrite Hstatus, Hdate. exact Hinv.
Qed.

End UpdateSurveyProperties.

Section UpdateSurveyExamples.
#[local] Existing Instance Sample.collaborators.

(** C6, on a concrete store: the scheduled survey "s1" is updated with its
    [runOnDate] removed and is stored as "inProgress". *)
Lemma updateSurvey_normalizes_status_witness :
  let updatedSurvey :=
    mkSurvey "s1" (DateObj 0) (DateObj 0) "s1" "web" "env1" None "scheduled"
      "displayOnce" None None None [] None None in
  ∃ result w' stored,
    updateSurvey 1000 updatedSurvey Sample.world = (Ok result, w')
    ∧ stored ∈ store_surveys (store w')
    ∧ survey_id stored = "s1"
    ∧ survey_status stored = "inProgress".
Proof.
  intros updatedSurvey.
  destruct (updateSurvey 1000 updatedSurvey Sample.world) as [[result|e] w'] eqn:Hrun;
    [|by vm_compute in Hrun].
  destruct (updateSurvey_normalizes_status 1000 updatedSurvey result Sample.world w' Hrun)
    as (stored & Hin & Hid & _ & _ & Hscheduled & _).
  exists result, w', stored. repeat split; [done|done|].
  by apply Hscheduled.
Defined.

End UpdateSurveyExamples.

(** ** [createSurvey] *)
Section CreateSurveyProperties.
Context `{Collaborators}.

(** C9. Every successful [createSurvey] returns a survey whose segment is
    [null], whatever the body and whatever row the database hands back. *)
Theorem createSurvey_segment_null (environmentId : string) (surveyBody : TSurveyInput)
    (w w' : World) (created : TSurvey) :
  createSurvey environmentId surveyBody w = (Ok created, w') →
  survey_segment created = None.
Proof.
  intros Hrun. unfold createSurvey in Hrun.
  apply M_bind_Ok in Hrun as (u1 & w1 & _ & Hrun).
  destruct (_ && _); [discriminate|].
  apply M_bind_Ok in Hrun as (u2 & w2 & _ & Hrun).
  apply M_bind_Ok in Hrun as (triggers & w3 & _ & Hrun).
  apply M_bind_Ok in Hrun as (survey & w4 & _ & Hrun).
  apply M_bind_Ok in Hrun as (u3 & w5 & _ & Hrun).
  apply M_bind_Ok in Hrun as (u4 & w6 & _ & Hrun).
  by injection Hrun as <- <-.
Qed.

End CreateSurveyProperties.

Section CreateSurveyExamples.
#[local] Existing Instance Sample.collaborators.

(** C9, on a concrete call that goes through. *)
Lemma createSurvey_segment_null_witness :
  let surveyBody :=
    mkSurveyInput (Some "NPS") (Some "web") (Some "u1") None None None None None
      None (Some ["signup"]) None in
  ∃ created w',
    createSurvey "env1" surveyBody Sample.world = (Ok created, w')
    ∧ survey_segment created = None.
Proof.
  intros surveyBody.
  destruct (createSurvey "env1" surveyBody Sample.world) as [[created|e] w'] eqn:Hrun;
    [|by vm_compute in Hrun].
  exists created, w'. split; [done|].
  exact (createSurvey_segment_null "env1" surveyBody Sample.world w' created Hrun).
Defined.

End CreateSurveyExamples.

(** ** [canUserModifyResponseNote] *)
Section ResponseNoteAuthProperties.
Context `{Collaborators}.



End ResponseNoteAuthProperties.

Section ResponseNoteAuthExamples.
#[local] Existing Instance Sample.collaborators.


End ResponseNoteAuthExamples.

(** ** Date fields across the cache *)
Section CacheProperties.
Context `{Collaborators}.

Lemma formatSurveyDateFields_typed (s : TSurvey) :
  surveyDatesTyped (formatSurveyDateFields s) = true.
Proof.
  unfold surveyDatesTyped, formatSurveyDateFields. simpl.
  by destruct (survey_runOnDate s), (survey_closeOnDate s), (survey_segment s).
Qed.

Lemma formatted_all_typed (l : list TSurvey) :
  Forall (λ s, surveyDatesTyped s = true) (formatSurveyDateFields <$> l).
Proof.
  apply Forall_fmap, Forall_forall. intros s _. apply formatSurveyDateFields_typed.
Qed.

(** The four read operations that pass their result through
    [formatSurveyDateFields] hand out typed dates, hit or miss. *)
Lemma getSurvey_typed surveyId (w w' : World) (survey : TSurvey) :
  getSurvey surveyId w = (Ok (Some survey), w') → surveyDatesTyped survey = true.
Proof.
  unfold getSurvey. intros Hrun.
  apply M_bind_Ok in Hrun as ([cached|] & w1 & _ & Hrun); [|discriminate].
  injection Hrun as <- <-. apply formatSurveyDateFields_typed.
Qed.

Lemma getSurveys_typed environmentId limit offset filterCriteria (w w' : World) surveys :
  getSurveys environmentId limit offset filterCriteria w = (Ok surveys, w') →
  Forall (λ s, surveyDatesTyped s = true) surveys.
Proof.
  unfold getSurveys. intros Hrun.
  apply M_bind_Ok in Hrun as (cached & w1 & _ & Hrun).
  injection Hrun as <- <-. apply formatted_all_typed.
Qed.

Lemma getSurveysByActionClassId_typed actionClassId page (w w' : World) surveys :
  getSurveysByActionClassId actionClassId page w = (Ok surveys, w') →
  Forall (λ s, surveyDatesTyped s = true) surveys.
Proof.
  unfold getSurveysByActionClassId. intros Hrun.
  apply M_bind_Ok in Hrun as (cached & w1 & _ & Hrun).
  injection Hrun as <- <-. apply formatted_all_typed.
Qed.

Lemma getSyncSurveys_typed now environmentId personId deviceType version
    (w w' : World) surveys :
  getSyncSurveys now environmentId personId deviceType version w = (Ok surveys, w') →
  Forall (λ s, surveyDatesTyped s = true) surveys.
Proof.
  unfold getSyncSurveys. intros Hrun.
  apply M_bind_Ok in Hrun as (u & w1 & _ & Hrun).
  apply M_bind_Ok in Hrun as (cached & w2 & _ & Hrun).
  injection Hrun as <- <-. apply formatted_all_typed.
Qed.

End CacheProperties.

(** C5. [getSurveysBySegmentId] returns what [unstable_cache] hands back
    without restoring the date fields: on a cache hit (here, the second call
    for segment "seg1") the survey comes back with its dates as strings. *)
Theorem getSurveysBySegmentId_returns_string_dates :
  let warm := (getSurveysBySegmentId "seg1" Sample.world).2 in
  ∃ survey,
    (getSurveysBySegmentId "seg1" warm).1 = Ok [survey]
    ∧ survey_id survey = "s1"
    ∧ survey_createdAt survey = DateStr 0
    ∧ surveyDatesTyped survey = false.
Proof.
  simpl. eexists. split; [vm_compute; reflexivity|]. by vm_compute.
Qed.

(** ** The migration script *)
Section MigrationProperties.
Import Migration.

Lemma migratedType_responses (surveyId : string) (db db' : Database) :
  responses db' = responses db →
  carriesPersonReference surveyId db' = carriesPersonReference surveyId db.
Proof.
  intros Hr. unfold carriesPersonReference, response_findFirst_latest. by rewrite Hr.
Qed.

Lemma evolves_refl (db : Database) : evolves db db.
Proof.
  split; [done|]. split; [done|]. split; [|by eauto].
  intros s Hs. exists s. auto.
Qed.

Lemma evolves_trans (db1 db2 db3 : Database) :
  evolves db1 db2 → evolves db2 db3 → evolves db1 db3.
Proof.
  intros (Hr1 & Hg1 & Hs1 & He1) (Hr2 & Hg2 & Hs2 & He2).
  split; [|split; [|split]].
  - congruence.
  - auto.
  - intros s3 Hs3.
    destruct (Hs2 s3 Hs3) as (s2 & Hin2 & Hid2 & Hseg2 & Hty2).
    destruct (Hs1 s2 Hin2) as (s1 & Hin1 & Hid1 & Hseg1 & Hty1).
    exists s1. split; [done|]. split; [congruence|]. split.
    + destruct Hseg2 as [?|Hseg2]; [by left|]. rewrite Hseg2. exact Hseg1.
    + unfold migratedType in *.
      rewrite (migratedType_responses _ _ _ Hr1), Hid1 in Hty2.
      destruct Hty2 as [Hty2|Hty2]; [rewrite Hty2; exact Hty1|by right].
  - intros s1 Hin1. destruct (He1 s1 Hin1) as (s2 & Hin2 & Hid2).
    destruct (He2 s2 Hin2) as (s3 & Hin3 & Hid3). exists s3. split; [done|congruence].
Qed.

Lemma survey_update_elem_of (id : string) (f : SurveyRow → SurveyRow)
    (db db' : Database) :
  survey_update id f db = Ok db' →
  segments db' = segments db ∧ responses db' = responses db
  ∧ (∃ s, s ∈ surveys db ∧ sv_id s = id)
  ∧ surveys db' = (λ s, if bool_decide (sv_id s = id) then f s else s) <$> surveys db.
Proof.
  unfold survey_update. case_bool_decide as Hex; [|discriminate].
  intros [= <-]. simpl. repeat split; try done.
  apply Exists_exists in Hex as (s & Hin & Hid). eauto.
Qed.

Lemma survey_update_succeeds (id : string) (f : SurveyRow → SurveyRow)
    (db : Database) (s : SurveyRow) :
  s ∈ surveys db → sv_id s = id → ∃ db', survey_update id f db = Ok db'.
Proof.
  intros Hin Hid. unfold survey_update.
  rewrite bool_decide_eq_true_2; [eauto|]. apply Exists_exists. eauto.
Qed.

Lemma survey_update_evolves (id : string) (f : SurveyRow → SurveyRow)
    (db db' : Database) :
  (∀ s, sv_id (f s) = sv_id s) →
  (∀ s, sv_segmentId (f s) = None ∨ sv_segmentId (f s) = sv_segmentId s) →
  (∀ s, sv_type (f s) = sv_type s ∨ sv_type (f s) = migratedType id db) →
  survey_update id f db = Ok db' → evolves db db'.
Proof.
  intros Hfid Hfseg Hfty Hup.
  apply survey_update_elem_of in Hup as (Hg & Hr & _ & Hs).
  split; [done|]. split; [by rewrite Hg|]. split.
  - intros s' Hs'. rewrite Hs in Hs'.
    apply list_elem_of_fmap in Hs' as (s & -> & Hin). exists s. split; [done|].
    case_bool_decide as Hid; [|auto]. subst id. auto.
  - intros s Hin. exists (if bool_decide (sv_id s = id) then f s else s). split.
    + rewrite Hs. apply list_elem_of_fmap. eauto.
    + by case_bool_decide.
Qed.

Lemma dropSegments_segments (gone : SegmentRow → Prop) `{∀ g, Decision (gone g)}
    (db : Database) (r : SegmentRow) :
  r ∈ segments (dropSegments gone db) ↔ r ∈ segments db ∧ ¬ gone r.
Proof. unfold dropSegments. simpl. rewrite list_elem_of_filter. tauto. Qed.

Lemma dropSegments_evolves (gone : SegmentRow → Prop) `{∀ g, Decision (gone g)}
    (db : Database) :
  evolves db (dropSegments gone db).
Proof.
  split; [done|]. split; [|split].
  - intros r Hr. by apply dropSegments_segments in Hr as [? _].
  - intros s' Hs'. unfold dropSegments in Hs'. simpl in Hs'.
    apply list_elem_of_fmap in Hs' as (s & -> & Hin). exists s. split; [done|].
    destruct (sv_segmentId s) eqn:Hseg; [|auto].
    case_bool_decide; [rewrite Hseg; auto|simpl; auto].
  - intros s Hin. eexists. split.
    + unfold dropSegments. simpl. apply list_elem_of_fmap. eauto.
    + destruct (sv_segmentId s); [|done]. by case_bool_decide.
Qed.

Lemma segment_delete_evolves (id : string) (db db' : Database) :
  segment_delete id db = Ok db' →
  evolves db db' ∧ ∀ r, r ∈ segments db' → sg_id r ≠ id.
Proof.
  unfold segment_delete. case_bool_decide; [|discriminate]. intros [= <-]. split.
  - apply dropSegments_evolves.
  - intros r Hr. by apply dropSegments_segments in Hr as [_ ?].
Qed.

(** What holds of a migrated survey keeps holding while the migration goes on. *)
Lemma evolves_type (id : string) (db db' : Database) :
  evolves db db' →
  (∀ s, s ∈ surveys db → sv_id s = id → sv_type s = migratedType id db) →
  ∀ s', s' ∈ surveys db' → sv_id s' = id → sv_type s' = migratedType id db'.
Proof.
  intros (Hr & _ & Hs & _) Hall s' Hin' Hid'.
  destruct (Hs s' Hin') as (s & Hin & Hid & _ & Hty).
  unfold migratedType in *. rewrite (migratedType_responses _ _ _ Hr).
  rewrite Hid' in Hid. subst id. rewrite <- Hid in Hty.
  destruct Hty as [->| ->]; [by apply Hall|done].
Qed.

Lemma evolves_disconnected (id : string) (db db' : Database) :
  evolves db db' →
  (∀ s, s ∈ surveys db → sv_id s = id → sv_segmentId s = None) →
  ∀ s', s' ∈ surveys db' → sv_id s' = id → sv_segmentId s' = None.
Proof.
  intros (_ & _ & Hs & _) Hall s' Hin' Hid'.
  destruct (Hs s' Hin') as (s & Hin & Hid & [Hseg|Hseg] & _); [done|].
  rewrite Hseg. apply Hall; [done|congruence].
Qed.

Lemma evolves_migrated (webSurvey : SurveyRow * option SegmentRow) (db db' : Database) :
  evolves db db' → migrated webSurvey db → migrated webSurvey db'.
Proof.
  intros Hev [Hty Hweb]. split.
  - by apply (evolves_type _ db db').
  - intros Hc. destruct Hev as (Hr & Hg & Hs & He).
    rewrite (migratedType_responses _ _ _ Hr) in Hc.
    destruct (Hweb Hc) as [Hseg Htitle]. split.
    + intros segment Hsnap. specialize (Hseg segment Hsnap).
      destruct (sg_isPrivate segment).
      * intros r Hin. apply Hseg, Hg, Hin.
      * by apply (evolves_disconnected _ db db').
    + intros r Hin. apply Htitle, Hg, Hin.
Qed.

Lemma migrateSurvey_unfold (webSurvey : SurveyRow * option SegmentRow) (db : Database) :
  migrateSurvey webSurvey db =
  if carriesPersonReference (sv_id webSurvey.1) db
  then survey_update (sv_id webSurvey.1) (setType "app") db
  else
    survey_update (sv_id webSurvey.1) (setType "website") db ≫= λ db1,
    match webSurvey.2 with
    | Some segment =>
        if sg_isPrivate segment
        then segment_delete (sg_id segment) db1
        else survey_update (sv_id webSurvey.1) disconnectSegment db1
    | None => Ok db1
    end ≫= λ db2,
    Ok (segment_deleteMany_private_titled (sv_id webSurvey.1) db2).
Proof. reflexivity. Qed.

Lemma result_bind_Ok {A B} (r : result A) (f : A → result B) (b : B) :
  r ≫= f = Ok b → ∃ a, r = Ok a ∧ f a = Ok b.
Proof. destruct r as [a|e]; [eauto|discriminate]. Qed.

Lemma setType_typed (t id : string) (db db' : Database) :
  survey_update id (setType t) db = Ok db' →
  ∀ s', s' ∈ surveys db' → sv_id s' = id → sv_type s' = t.
Proof.
  intros Hup s' Hin Hid.
  apply survey_update_elem_of in Hup as (_ & _ & _ & Hs).
  rewrite Hs in Hin. apply list_elem_of_fmap in Hin as (s & -> & _).
  by case_bool_decide.
Qed.

Lemma disconnectSegment_disconnected (id : string) (db db' : Database) :
  survey_update id disconnectSegment db = Ok db' →
  ∀ s', s' ∈ surveys db' → sv_id s' = id → sv_segmentId s' = None.
Proof.
  intros Hup s' Hin Hid.
  apply survey_update_elem_of in Hup as (_ & _ & _ & Hs).
  rewrite Hs in Hin. apply list_elem_of_fmap in Hin as (s & -> & _).
  by case_bool_decide.
Qed.

(** One turn of the loop. *)
Lemma migrateSurvey_inv (webSurvey : SurveyRow * option SegmentRow) (db db' : Database) :
  migrateSurvey webSurvey db = Ok db' → evolves db db' ∧ migrated webSurvey db'.
Proof.
  rewrite migrateSurvey_unfold.
  destruct (carriesPersonReference (sv_id webSurvey.1) db) eqn:Hc.
  - intros Hup.
    assert (evolves db db') as Hev.
    { apply (survey_update_evolves _ _ _ _) in Hup; [done|done|by right|].
      intros s. right. unfold migratedType. by rewrite Hc. }
    split; [done|]. pose proof Hev as (Hr & _).
    split.
    + intros s' Hin Hid. unfold migratedType.
      rewrite (migratedType_responses _ _ _ Hr), Hc. by eapply setType_typed.
    + rewrite (migratedType_responses _ _ _ Hr), Hc. discriminate.
  - intros Hrun.
    apply result_bind_Ok in Hrun as (db1 & Hup & Hrun).
    apply result_bind_Ok in Hrun as (db2 & Hseg & Hrun).
    injection Hrun as <-.
    assert (evolves db db1) as Hev1.
    { pose proof Hup as Hup'.
      apply (survey_update_evolves _ _ _ _) in Hup'; [done|done|by right|].
      intros s. right. unfold migratedType. by rewrite Hc. }
    assert (evolves db2 (segment_deleteMany_private_titled (sv_id webSurvey.1) db2))
      as Hev3 by apply dropSegments_evolves.
    assert (evolves db1 db2
            ∧ ∀ segment, webSurvey.2 = Some segment →
                if sg_isPrivate segment
                then ∀ r, r ∈ segments db2 → sg_id r ≠ sg_id segment
                else ∀ s', s' ∈ surveys db2 → sv_id s' = sv_id webSurvey.1 →
                           sv_segmentId s' = None) as [Hev2 Hsegment].
    { destruct (webSurvey.2) as [segment|].
      - destruct (sg_isPrivate segment) eqn:Hprivate.
        + apply segment_delete_evolves in Hseg as [Hev2 Hgone].
          split; [done|]. intros ? [= <-]. by rewrite Hprivate.
        + split.
          * pose proof Hseg as Hseg'.
            by apply (survey_update_evolves _ _ _ _) in Hseg'; [|done|left|left].
          * intros ? [= <-]. rewrite Hprivate.
            by eapply disconnectSegment_disconnected.
      - injection Hseg as <-. split; [apply evolves_refl|done]. }
    split; [eauto using evolves_trans|].
    pose proof (evolves_trans _ _ _ Hev2 Hev3) as Hev23.
    pose proof (evolves_trans _ _ _ Hev1 Hev23) as (Hr & _).
    split.
    + apply (evolves_type _ db1); [done|].
      intros s Hin Hid. unfold migratedType.
      destruct Hev1 as (Hr1 & _).
      rewrite (migratedType_responses _ _ _ Hr1), Hc. by eapply setType_typed.
    + intros _. split.
      * intros segment Hsnap. specialize (Hsegment segment Hsnap).
        pose proof Hev3 as (_ & Hg3 & _).
        destruct (sg_isPrivate segment).
        -- intros r Hin. apply Hsegment, Hg3, Hin.
        -- by apply (evolves_disconnected _ db2).
      * intros r Hin.
        unfold segment_deleteMany_private_titled in Hin.
        by apply dropSegments_segments in Hin as [_ ?].
Qed.

(** The whole loop. *)
Lemma migrateAll_inv (webSurveys : list (SurveyRow * option SegmentRow))
    (db db' : Database) :
  migrateAll webSurveys db = Ok db' →
  evolves db db' ∧ ∀ webSurvey, webSurvey ∈ webSurveys → migrated webSurvey db'.
Proof.
  revert db. induction webSurveys as [|webSurvey rest IH]; intros db Hrun.
  - injection Hrun as <-. split; [apply evolves_refl|].
    intros w Hw. by apply elem_of_nil in Hw.
  - simpl in Hrun. apply result_bind_Ok in Hrun as (db1 & Hstep & Hrun).
    apply migrateSurvey_inv in Hstep as [Hev1 Hdone].
    apply IH in Hrun as [Hev2 Hrest].
    split; [by eapply evolves_trans|].
    intros w [->|Hw]%elem_of_cons; [|by apply Hrest].
    by apply (evolves_migrated _ db1).
Qed.

(** *** The transaction commits on well-formed data *)

Lemma evolves_survey_exists (id : string) (db db' : Database) :
  evolves db db' →
  (∃ s, s ∈ surveys db ∧ sv_id s = id) → ∃ s', s' ∈ surveys db' ∧ sv_id s' = id.
Proof.
  intros (_ & _ & _ & He) (s & Hin & Hid).
  destruct (He s Hin) as (s' & Hin' & Hid'). exists s'. split; [done|congruence].
Qed.

Lemma migrateSurvey_succeeds (webSurvey : SurveyRow * option SegmentRow) (db : Database) :
  (∃ s, s ∈ surveys db ∧ sv_id s = sv_id webSurvey.1) →
  (∀ segment, webSurvey.2 = Some segment → sg_isPrivate segment = true →
              segment ∈ segments db) →
  ∃ db', migrateSurvey webSurvey db = Ok db'.
Proof.
  intros (s & Hin & Hid) Hpresent. rewrite migrateSurvey_unfold.
  destruct (carriesPersonReference _ _) eqn:Hc; [by eapply survey_update_succeeds|].
  destruct (survey_update_succeeds _ (setType "website") db s Hin Hid) as [db1 Hup].
  rewrite Hup. simpl.
  pose proof Hup as Hev.
  apply (survey_update_evolves _ _ _ _) in Hev;
    [|done|by right|intros ?; right; unfold migratedType; by rewrite Hc].
  apply survey_update_elem_of in Hup as (Hg & _).
  destruct (webSurvey.2) as [segment|]; [|simpl; eauto].
  destruct (sg_isPrivate segment) eqn:Hprivate.
  - unfold segment_delete. rewrite bool_decide_eq_true_2; [simpl; eauto|].
    apply Exists_exists. exists segment. split; [|done].
    rewrite Hg. by apply Hpresent.
  - destruct (evolves_survey_exists (sv_id webSurvey.1) db db1 Hev) as (s1 & Hin1 & Hid1);
      [eauto|].
    destruct (survey_update_succeeds _ disconnectSegment db1 s1 Hin1 Hid1) as [db2 ->].
    simpl. eauto.
Qed.

(** A segment survives a turn of the loop unless the turn deletes it by its
    identifier or by its title. *)
Lemma migrateSurvey_keeps (webSurvey : SurveyRow * option SegmentRow)
    (db db' : Database) (r : SegmentRow) :
  migrateSurvey webSurvey db = Ok db' →
  r ∈ segments db →
  (∀ segment, webSurvey.2 = Some segment → sg_isPrivate segment = true →
              sg_id r ≠ sg_id segment) →
  ¬ (sg_title r = sv_id webSurvey.1 ∧ sg_isPrivate r = true) →
  r ∈ segments db'.
Proof.
  rewrite migrateSurvey_unfold. intros Hrun Hin Hid Htitle.
  destruct (carriesPersonReference _ _).
  { apply survey_update_elem_of in Hrun as (-> & _). done. }
  apply result_bind_Ok in Hrun as (db1 & Hup & Hrun).
  apply result_bind_Ok in Hrun as (db2 & Hseg & Hrun).
  injection Hrun as <-.
  apply survey_update_elem_of in Hup as (Hg1 & _).
  unfold segment_deleteMany_private_titled.
  apply dropSegments_segments. split; [|done].
  destruct (webSurvey.2) as [segment|]; [|injection Hseg as <-; by rewrite Hg1].
  destruct (sg_isPrivate segment) eqn:Hprivate.
  - unfold segment_delete in Hseg. case_bool_decide; [|discriminate].
    injection Hseg as <-. apply dropSegments_segments.
    split; [by rewrite Hg1|]. by apply Hid.
  - apply survey_update_elem_of in Hseg as (-> & _). by rewrite Hg1.
Qed.

Lemma migrateAll_succeeds (webSurveys : list (SurveyRow * option SegmentRow))
    (db : Database) :
  NoDup ((λ w, sv_id w.1) <$> webSurveys) →
  (∀ w, w ∈ webSurveys → ∃ s, s ∈ surveys db ∧ sv_id s = sv_id w.1) →
  (∀ w segment, w ∈ webSurveys → w.2 = Some segment → sg_isPrivate segment = true →
                segment ∈ segments db ∧ sg_title segment = sv_id w.1) →
  (∀ w w' segment segment',
     w ∈ webSurveys → w' ∈ webSurveys →
     w.2 = Some segment → w'.2 = Some segment' →
     sg_id segment = sg_id segment' → segment = segment') →
  ∃ db', migrateAll webSurveys db = Ok db'.
Proof.
  revert db. induction webSurveys as [|a rest IH]; intros db Hnodup Hrows Hsegs Hsnap.
  { simpl. eauto. }
  rewrite fmap_cons in Hnodup. apply NoDup_cons in Hnodup as [Hfresh Hnodup].
  destruct (migrateSurvey_succeeds a db) as [db1 Hstep].
  { apply Hrows. by left. }
  { intros segment Ha Hprivate. by apply (Hsegs a segment); [left|..]. }
  simpl. rewrite Hstep. simpl.
  pose proof (migrateSurvey_inv _ _ _ Hstep) as [Hev _].
  apply IH; [done| | |].
  - intros w Hw. apply (evolves_survey_exists _ db db1 Hev). apply Hrows. by right.
  - intros w segment Hw Hsegment Hprivate.
    destruct (Hsegs w segment) as [Hin Htitle]; [by right|done|done|].
    assert (sv_id w.1 ≠ sv_id a.1) as Hother.
    { intros Heq. apply Hfresh. rewrite <- Heq.
      by apply (list_elem_of_fmap_2 (λ w, sv_id w.1)). }
    split; [|done].
    apply (migrateSurvey_keeps a db db1); [done|done| |].
    + intros segment' Ha Hprivate' Hsame.
      assert (segment = segment') as <-.
      { apply (Hsnap w a); [by right|by left|done|done|done]. }
      destruct (Hsegs a segment) as [_ Htitle']; [by left|done|done|]. congruence.
    + intros [Htitle' _]. congruence.
  - intros w w' segment segment' Hw Hw'. apply Hsnap; by right.
Qed.

Lemma segment_findUnique_Some (id : string) (db : Database) (segment : SegmentRow) :
  segment_findUnique id db = Some segment → segment ∈ segments db ∧ sg_id segment = id.
Proof.
  unfold segment_findUnique. intros Hhead.
  by apply head_Some_elem_of, list_elem_of_filter in Hhead as [? ?].
Qed.

Lemma survey_findMany_web_elem_of (db : Database) (w : SurveyRow * option SegmentRow) :
  w ∈ survey_findMany_web db ↔
    w.1 ∈ surveys db ∧ sv_type w.1 = "web"
    ∧ w.2 = sv_segmentId w.1 ≫= λ g, segment_findUnique g db.
Proof.
  unfold survey_findMany_web. rewrite list_elem_of_fmap. split.
  - intros (s & -> & Hin). apply list_elem_of_filter in Hin as [? ?]. done.
  - intros (Hin & Hweb & Hsnap). exists w.1. split.
    + destruct w as [s snap]. simpl in *. by rewrite Hsnap.
    + by apply list_elem_of_filter.
Qed.

(** C7. The migration, for every survey of type "web": when it commits, the
    survey is "app" if its latest response carries a person reference and
    "website" otherwise; on the "website" path its connected segment is gone
    when private and disconnected when shared, and no private segment titled
    with the survey's id is left.  On data with unique survey identifiers whose
    private segments are titled by their owner, the migration does commit. *)
Theorem main_spec (db : Database) :
  (uniqueSurveyIds db → privateSegmentsTitledByOwner db → ∃ db', main db = Ok db')
  ∧ ∀ db', main db = Ok db' →
      ∀ s, s ∈ surveys db → sv_type s = "web" →
        (∃ s', s' ∈ surveys db' ∧ sv_id s' = sv_id s)
        ∧ if carriesPersonReference (sv_id s) db
          then ∀ s', s' ∈ surveys db' → sv_id s' = sv_id s → sv_type s' = "app"
          else
            (∀ s', s' ∈ surveys db' → sv_id s' = sv_id s → sv_type s' = "website")
            ∧ (∀ segment,
                 sv_segmentId s ≫= (λ g, segment_findUnique g db) = Some segment →
                 if sg_isPrivate segment
                 then ∀ r, r ∈ segments db' → sg_id r ≠ sg_id segment
                 else ∀ s', s' ∈ surveys db' → sv_id s' = sv_id s →
                            sv_segmentId s' = None)
            ∧ ∀ r, r ∈ segments db' →
                   ¬ (sg_title r = sv_id s ∧ sg_isPrivate r = true).
Proof.
  split.
  - intros Hunique Htitled. unfold main. apply migrateAll_succeeds.
    + unfold survey_findMany_web. rewrite <- list_fmap_compose.
      apply (sublist_NoDup _ (sv_id <$> surveys db)); [exact Hunique|].
      apply (fmap_sublist sv_id), sublist_filter.
    + intros w (Hin & _)%survey_findMany_web_elem_of. eauto.
    + intros w segment (Hin & Hweb & Hsnap)%survey_findMany_web_elem_of Hsegment Hprivate.
      rewrite Hsnap in Hsegment. split; [|by apply Htitled].
      destruct (sv_segmentId w.1) as [g|]; [|done].
      by apply segment_findUnique_Some in Hsegment as [? _].
    + intros w w' segment segment'
        (_ & _ & Hsnap)%survey_findMany_web_elem_of
        (_ & _ & Hsnap')%survey_findMany_web_elem_of Hsegment Hsegment' Hsame.
      rewrite Hsnap in Hsegment. rewrite Hsnap' in Hsegment'.
      destruct (sv_segmentId w.1) as [g|]; [|done].
      destruct (sv_segmentId w'.1) as [g'|]; [|done]. simpl in *.
      pose proof (segment_findUnique_Some _ _ _ Hsegment) as [_ Hg].
      pose proof (segment_findUnique_Some _ _ _ Hsegment') as [_ Hg'].
      congruence.
  - intros db' Hrun s Hin Hweb. unfold main in Hrun.
    apply migrateAll_inv in Hrun as [Hev Hall].
    pose proof Hev as (Hr & _).
    split; [apply (evolves_survey_exists _ db db' Hev); eauto|].
    destruct (Hall (s, sv_segmentId s ≫= λ g, segment_findUnique g db))
      as [Htype Hwebsite].
    { by apply survey_findMany_web_elem_of. }
    simpl in *. unfold migratedType in Htype.
    rewrite (migratedType_responses _ _ _ Hr) in Htype, Hwebsite.
    destruct (carriesPersonReference (sv_id s) db); [done|].
    destruct (Hwebsite eq_refl) as [Hsegment Htitle]. done.
Qed.

Lemma latestOf_None (rs : list ResponseRow) : latestOf rs = None → rs = [].
Proof.
  destruct rs as [|r rest]; [done|]. simpl.
  destruct (latestOf rest); [by case_bool_decide|done].
Qed.

(** The response the migration looks at is a latest one: no response of the
    survey is more recent. *)
Lemma latestOf_latest (rs : list ResponseRow) (latest : ResponseRow) :
  latestOf rs = Some latest →
  latest ∈ rs ∧ ∀ r, r ∈ rs → (rs_createdAt r ≤ rs_createdAt latest)%Z.
Proof.
  revert latest. induction rs as [|r rest IH]; intros latest; [done|].
  simpl. destruct (latestOf rest) as [r'|] eqn:Hrest.
  - destruct (IH r' eq_refl) as [Hin Hmax].
    case_bool_decide as Hlt; intros [= <-].
    + split; [by right|]. intros x [->|Hx]%elem_of_cons; [lia|by apply Hmax].
    + split; [by left|]. intros x [->|Hx]%elem_of_cons; [lia|].
      specialize (Hmax x Hx). lia.
  - intros [= <-]. apply latestOf_None in Hrest as ->.
    split; [by left|]. intros x [->|Hx]%elem_of_cons; [lia|by apply elem_of_nil in Hx].
Qed.

End MigrationProperties.

(** C7, on the scenario of the specification: "answered" has a response with a
    person and becomes "app"; "anonymous" has none, becomes "website" and loses
    its private segment. *)
Lemma main_spec_witness :
  let db :=
    Migration.mkDatabase
      [Migration.mkSurveyRow "answered" "web" None;
       Migration.mkSurveyRow "anonymous" "web" (Some "g1");
       Migration.mkSurveyRow "other" "link" None]
      [Migration.mkSegmentRow "g1" "anonymous" true;
       Migration.mkSegmentRow "g2" "everyone" false]
      [Migration.mkResponseRow "r1" "answered" None 10;
       Migration.mkResponseRow "r2" "answered" (Some "p1") 20;
       Migration.mkResponseRow "r3" "anonymous" None 30] in
  ∃ db',
    Migration.main db = Ok db'
    ∧ (∀ s', s' ∈ Migration.surveys db' → Migration.sv_id s' = "answered" →
             Migration.sv_type s' = "app")
    ∧ (∀ s', s' ∈ Migration.surveys db' → Migration.sv_id s' = "anonymous" →
             Migration.sv_type s' = "website")
    ∧ (∀ r, r ∈ Migration.segments db' → Migration.sg_id r ≠ "g1").
Proof.
  intros db. destruct (main_spec db) as [Hcommits Hmigrated].
  destruct Hcommits as [db' Hrun].
  - unfold Migration.uniqueSurveyIds. simpl.
    apply (bool_decide_unpack (NoDup ["answered"; "anonymous"; "other"])).
    by vm_compute.
  - intros s segment Hin Hweb Hsnap Hprivate.
    repeat (apply elem_of_cons in Hin as [->|Hin]); try done.
    + by injection Hsnap as <-.
    + by apply elem_of_nil in Hin.
  - exists db'. split; [done|].
    pose proof (Hmigrated db' Hrun (Migration.mkSurveyRow "answered" "web" None))
      as [_ Happ]; [by left|done|].
    pose proof (Hmigrated db' Hrun (Migration.mkSurveyRow "anonymous" "web" (Some "g1")))
      as [_ (Hwebsite & Hsegment & _)]; [by right; left|done|].
    split; [exact Happ|]. split; [exact Hwebsite|].
    exact (Hsegment (Migration.mkSegmentRow "g1" "anonymous" true) eq_refl).
Defined.

(** * Further properties of the sources *)

Lemma mapMr_Forall2 {A B} (f : A → result B) (l : list A) (ys : list B) :
  mapMr f l = Ok ys ↔ Forall2 (λ x y, f x = Ok y) l ys.
Proof.
  revert ys. induction l as [|x l IH]; intros ys; simpl.
  - split; [intros [= <-]; constructor|intros Hys; by inversion Hys].
  - unfold mbind, result_bind. split.
    + destruct (f x) as [y|e] eqn:Hx; [|discriminate].
      destruct (mapMr f l) as [ys'|e] eqn:Hl; [|discriminate].
      intros [= <-]. constructor; [done|]. by apply IH.
    + intros Hys. inversion Hys as [|? y ? ys' Hx Hrest]; subst.
      rewrite Hx. apply IH in Hrest. by rewrite Hrest.
Qed.

Lemma mapMr_Err_elem_of {A B} (f : A → result B) (l : list A) (x : A) (e : error) :
  x ∈ l → f x = Err e → ∃ e', mapMr f l = Err e'.
Proof.
  intros Hx Hf. induction l as [|y l IH]; [by apply elem_of_nil in Hx|].
  simpl. unfold mbind, result_bind.
  destruct (f y) as [b|e1] eqn:Hy; [|eauto].
  apply elem_of_cons in Hx as [->|Hx]; [congruence|].
  destruct (IH Hx) as [e' ->]. eauto.
Qed.

Section SegmentStageProperties.
Context `{Collaborators}.

Lemma evaluateSurveySegment_Ok environmentId person personActionClassIds personUserId
    deviceType version survey verdict :
  evaluateSurveySegment environmentId person personActionClassIds personUserId
    deviceType version survey = Ok verdict →
  (verdict = Some survey ∨ verdict = None)
  ∧ (survey_segment survey = None → verdict = Some survey).
Proof.
  unfold evaluateSurveySegment.
  destruct (survey_segment survey) as [segment|] eqn:Hsegment.
  - destruct (negb _).
    + intros [= <-]. split; [|done].
      destruct (evaluateLegacySegment person survey segment) as [kept|] eqn:Hlegacy;
        [|by right].
      left. f_equal. by eapply evaluateLegacySegment_Some.
    + unfold mbind, result_bind. destruct (evaluateSegment _ _) as [[|]|e]; [| |done].
      * intros [= <-]. split; [by left|done].
      * intros [= <-]. split; [by right|done].
  - intros [= <-]. split; [by left|done].
Qed.

(** X1. Whatever the protocol version, the segment stage only drops surveys:
    what it keeps is a sublist of the candidates, in their order, and every
    candidate without a segment is kept. *)
Theorem segmentStage_keeps_sublist environmentId person personActionClassIds
    personUserId deviceType version (surveys kept : list TSurvey) :
  segmentStage environmentId person personActionClassIds personUserId deviceType
    version surveys = Ok kept →
  kept `sublist_of` surveys
  ∧ ∀ survey, survey ∈ surveys → survey_segment survey = None → survey ∈ kept.
Proof.
  unfold segmentStage. intros Hrun.
  apply result_bind_Ok in Hrun as (resolved & Hmap & Hkept).
  injection Hkept as <-. apply mapMr_Forall2 in Hmap.
  induction Hmap as [|survey verdict surveys resolved Hverdict _ [IHsub IHin]].
  - split; [done|]. intros s Hs. by apply elem_of_nil in Hs.
  - apply evaluateSurveySegment_Ok in Hverdict as [[->| ->] Hnone]; simpl.
    + split; [by apply sublist_skip|].
      intros s [->|Hs]%elem_of_cons Hseg; [left|right; by apply IHin].
    + split; [by apply sublist_cons|].
      intros s [->|Hs]%elem_of_cons Hseg; [by specialize (Hnone Hseg)|by apply IHin].
Qed.

(** X2. With a protocol version, a survey that has a segment is kept exactly
    when [evaluateSegment] answers true, and an exception of [evaluateSegment]
    is not contained: it fails the stage for every candidate list that
    contains the survey. *)
Theorem structured_segment_follows_evaluateSegment environmentId person
    personActionClassIds personUserId deviceType version survey segment :
  truthyOptString version = true →
  survey_segment survey = Some segment →
  let userData :=
    mkUserData (default ∅ (person_attributes person)) personActionClassIds deviceType
      environmentId (person_id person) personUserId in
  (∀ verdict, evaluateSegment userData (segment_filters segment) = Ok verdict →
     evaluateSurveySegment environmentId person personActionClassIds personUserId
       deviceType version survey = Ok (if verdict then Some survey else None))
  ∧ (∀ e, evaluateSegment userData (segment_filters segment) = Err e →
       evaluateSurveySegment environmentId person personActionClassIds personUserId
         deviceType version survey = Err e
       ∧ ∀ surveys, survey ∈ surveys →
           ∃ e', segmentStage environmentId person personActionClassIds personUserId
                   deviceType version surveys = Err e').
Proof.
  intros Hversion Hsegment userData.
  assert (∀ r, evaluateSegment userData (segment_filters segment) = r →
               evaluateSurveySegment environmentId person personActionClassIds
                 personUserId deviceType version survey
               = r ≫= λ verdict : bool, Ok (if verdict then Some survey else None))
    as Hstep.
  { intros r <-. unfold evaluateSurveySegment. by rewrite Hsegment, Hversion. }
  split.
  - intros verdict Hverdict. by rewrite (Hstep _ Hverdict).
  - intros e He. split; [by rewrite (Hstep _ He)|].
    intros surveys Hin. unfold segmentStage.
    destruct (mapMr_Err_elem_of
                (evaluateSurveySegment environmentId person personActionClassIds
                   personUserId deviceType version) surveys survey e Hin)
      as [e' ->]; [by rewrite (Hstep _ He)|]. eauto.
Qed.


(** X4. The legacy evaluation of a segment is a conjunction: the survey is
    kept exactly when the segment filters have a flat translation and the
    person meets every attribute filter of it (none, when it is empty). *)
Theorem evaluateLegacySegment_spec (person : TPerson) (survey : TSurvey)
    (segment : TSegment) :
  evaluateLegacySegment person survey segment = Some survey ↔
    ∃ attributeFilters,
      transformSegmentFiltersToAttributeFilters (segment_filters segment)
        = Some attributeFilters
      ∧ ∀ attributeFilter, attributeFilter ∈ attributeFilters →
          meetsAttributeFilter person attributeFilter = true.
Proof.
  unfold evaluateLegacySegment.
  destruct (transformSegmentFiltersToAttributeFilters _) as [attributeFilters|];
    [|split; [done|by intros (? & ? & _)]].
  case_bool_decide as Hempty.
  - apply length_zero_iff_nil in Hempty as ->. split; [|done].
    intros _. eexists. split; [done|]. intros af Haf. by apply elem_of_nil in Haf.
  - destruct (forallb _ _) eqn:Hall.
    + split; [|done]. intros _. eexists. split; [done|].
      intros af Haf. rewrite forallb_forall in Hall. by apply Hall, list_elem_of_In.
    + split; [done|]. intros (afs & [= <-] & Hmeets).
      assert (forallb (meetsAttributeFilter person) attributeFilters = true) as Htrue.
      { apply forallb_forall. intros af Haf. by apply Hmeets, list_elem_of_In. }
      congruence.
Qed.

End SegmentStageProperties.

(** ** Trigger updates *)
Section TriggerUpdateProperties.
Context `{Collaborators}.

Lemma getActionClassIdFromName_Ok actionClasses actionClassName actionClassId :
  getActionClassIdFromName actionClasses actionClassName = Ok actionClassId →
  ∃ ac, ac ∈ actionClasses ∧ actionClass_name ac = actionClassName
        ∧ actionClass_id ac = actionClassId.
Proof.
  unfold getActionClassIdFromName.
  destruct (head (filter _ _)) as [ac|] eqn:Hhead; [|discriminate].
  intros [= <-]. apply head_Some_elem_of, list_elem_of_filter in Hhead as [? ?]. eauto.
Qed.

Lemma getActionClassIdFromName_unknown actionClasses actionClassName :
  (∀ ac, ac ∈ actionClasses → actionClass_name ac ≠ actionClassName) →
  getActionClassIdFromName actionClasses actionClassName
  = Err (TypeError "Cannot read properties of undefined (reading 'id')").
Proof.
  intros Hunknown. unfold getActionClassIdFromName.
  destruct (head (filter _ _)) as [ac|] eqn:Hhead; [|done].
  apply head_Some_elem_of, list_elem_of_filter in Hhead as [Hname Hin].
  by destruct (Hunknown ac Hin).
Qed.

Lemma getActionClassIdFromName_Err actionClasses actionClassName e :
  getActionClassIdFromName actionClasses actionClassName = Err e →
  e = TypeError "Cannot read properties of undefined (reading 'id')".
Proof.
  unfold getActionClassIdFromName. destruct (head (filter _ _)); [done|]. by intros [= <-].
Qed.

Lemma actionClassIds_Err actionClasses names e :
  mapMr (getActionClassIdFromName actionClasses) names = Err e →
  e = TypeError "Cannot read properties of undefined (reading 'id')".
Proof.
  induction names as [|n names IH]; [done|]. simpl. unfold mbind, result_bind.
  destruct (getActionClassIdFromName actionClasses n) eqn:Hn.
  - destruct (mapMr _ names); [done|]. intros [= <-]. by apply IH.
  - intros [= <-]. by eapply getActionClassIdFromName_Err.
Qed.

(** The two branches [if (xs.length > 0) { ... xs.map(getActionClassIdFromName) }]
    of [processTriggerUpdates]. *)
Lemma triggerIds_run actionClasses names (w : World) :
  (if bool_decide (0 < length names)%nat
   then liftR (Some <$> mapMr (getActionClassIdFromName actionClasses) names)
   else mret None : M (option (list string))) w
  = (match mapMr (getActionClassIdFromName actionClasses) names with
     | Ok ids => Ok (if bool_decide (0 < length names)%nat then Some ids else None)
     | Err e => Err e
     end, w).
Proof.
  destruct names as [|n names]; [done|].
  rewrite bool_decide_eq_true_2 by (simpl; lia). unfold liftR.
  by destruct (mapMr _ _).
Qed.

Lemma revalidateSurveyByActionClassName_store actionClasses names (w : World) :
  store (revalidateSurveyByActionClassName actionClasses names w).2 = store w.
Proof.
  unfold revalidateSurveyByActionClassName. revert w.
  induction names as [|n names IH]; intros w; [done|].
  simpl. unfold mbind, M_bind, liftR.
  destruct (getActionClassIdFromName actionClasses n); [|done].
  simpl. by rewrite IH.
Qed.

(** X5. Submitting the triggers a survey already has (empty names aside) is a
    no-op: nothing is created, nothing is deleted, no cache entry is touched,
    and no action class is looked up, so it cannot throw. *)
Theorem processTriggerUpdates_unchanged (triggers currentSurveyTriggers : list string)
    (actionClasses : list TActionClass) (w : World) :
  (∀ trigger, trigger ∈ triggers → trigger = "" ∨ trigger ∈ currentSurveyTriggers) →
  (∀ trigger, trigger ∈ currentSurveyTriggers → trigger ∈ triggers) →
  processTriggerUpdates triggers currentSurveyTriggers actionClasses w
  = (Ok (mkTriggerUpdate None None), w).
Proof.
  intros Hnew Hremoved. unfold processTriggerUpdates.
  assert (filter (λ trigger, ¬ (trigger = "" ∨ trigger ∈ currentSurveyTriggers)) triggers
          = []) as ->.
  { apply length_zero_iff_nil, length_filter_zero. intros t Ht Hneg. by apply Hneg, Hnew. }
  assert (filter (λ trigger, trigger ∉ triggers) currentSurveyTriggers = []) as ->.
  { apply length_zero_iff_nil, length_filter_zero. intros t Ht Hneg. by apply Hneg, Hremoved. }
  reflexivity.
Qed.

(** X6. A trigger to add or to remove that is not the name of any action class
    makes [processTriggerUpdates] throw the [TypeError] of reading [id] of
    [undefined], before any cache entry is touched. *)
Theorem processTriggerUpdates_unknown_trigger (triggers currentSurveyTriggers : list string)
    (actionClasses : list TActionClass) (w : World) (trigger : string) :
  (∀ ac, ac ∈ actionClasses → actionClass_name ac ≠ trigger) →
  (trigger ∈ triggers ∧ trigger ≠ "" ∧ trigger ∉ currentSurveyTriggers)
  ∨ (trigger ∈ currentSurveyTriggers ∧ trigger ∉ triggers) →
  processTriggerUpdates triggers currentSurveyTriggers actionClasses w
  = (Err (TypeError "Cannot read properties of undefined (reading 'id')"), w).
Proof.
  intros Hunknown Hcase. unfold processTriggerUpdates.
  unfold mbind at 1, M_bind at 1. rewrite triggerIds_run.
  destruct (mapMr _ (filter (λ t, ¬ (t = "" ∨ t ∈ currentSurveyTriggers)) triggers))
    as [created|e] eqn:Hcreate.
  2: { by rewrite (actionClassIds_Err _ _ _ Hcreate). }
  destruct Hcase as [(Hin & Hne & Hnotin)|[Hin Hnotin]].
  { destruct (mapMr_Err_elem_of (getActionClassIdFromName actionClasses)
                (filter (λ t, ¬ (t = "" ∨ t ∈ currentSurveyTriggers)) triggers) trigger
                (TypeError "Cannot read properties of undefined (reading 'id')"))
      as [e' He'].
    - apply list_elem_of_filter. split; [|done]. intros [?|?]; done.
    - by apply getActionClassIdFromName_unknown.
    - congruence. }
  unfold mbind at 1, M_bind at 1. rewrite triggerIds_run.
  destruct (mapMr_Err_elem_of (getActionClassIdFromName actionClasses)
              (filter (λ t, t ∉ triggers) currentSurveyTriggers) trigger
              (TypeError "Cannot read properties of undefined (reading 'id')"))
    as [e' He'].
  - by apply list_elem_of_filter.
  - by apply getActionClassIdFromName_unknown.
  - rewrite He'. by rewrite (actionClassIds_Err _ _ _ He').
Qed.

(** X7. When [processTriggerUpdates] goes through, the store is untouched, the
    created ids are exactly the ids of the action classes named by the triggers
    that are new (non-empty and not among the current ones), and the deleted
    ids exactly those named by the current triggers that are gone. *)
Theorem processTriggerUpdates_spec (triggers currentSurveyTriggers : list string)
    (actionClasses : list TActionClass) (w w' : World) (update : TriggerUpdate) :
  processTriggerUpdates triggers currentSurveyTriggers actionClasses w = (Ok update, w') →
  store w' = store w
  ∧ Forall2 (λ trigger actionClassId,
               ∃ ac, ac ∈ actionClasses ∧ actionClass_name ac = trigger
                     ∧ actionClass_id ac = actionClassId)
      (filter (λ trigger, ¬ (trigger = "" ∨ trigger ∈ currentSurveyTriggers)) triggers)
      (default [] (tu_create update))
  ∧ Forall2 (λ trigger actionClassId,
               ∃ ac, ac ∈ actionClasses ∧ actionClass_name ac = trigger
                     ∧ actionClass_id ac = actionClassId)
      (filter (λ trigger, trigger ∉ triggers) currentSurveyTriggers)
      (default [] (tu_deleteMany update)).
Proof.
  unfold processTriggerUpdates. intros Hrun.
  apply M_bind_Ok in Hrun as (create & w1 & Hcreate & Hrun).
  apply M_bind_Ok in Hrun as (deleteMany & w2 & Hdelete & Hrun).
  apply M_bind_Ok in Hrun as (u & w3 & Hrevalidate & Hrun).
  injection Hrun as <- <-.
  rewrite triggerIds_run in Hcreate. rewrite triggerIds_run in Hdelete.
  destruct (mapMr _ (filter (λ t, ¬ (t = "" ∨ t ∈ currentSurveyTriggers)) triggers))
    as [created|] eqn:Hcreated; [|discriminate].
  destruct (mapMr _ (filter (λ t, t ∉ triggers) currentSurveyTriggers))
    as [deleted|] eqn:Hdeleted; [|discriminate].
  injection Hcreate as <- <-. injection Hdelete as <- <-.
  pose proof (revalidateSurveyByActionClassName_store actionClasses
                (filter (λ t, ¬ (t = "" ∨ t ∈ currentSurveyTriggers)) triggers
                 ++ filter (λ t, t ∉ triggers) currentSurveyTriggers) w) as Hstore.
  rewrite Hrevalidate in Hstore. split; [done|]. simpl.
  apply mapMr_Forall2 in Hcreated, Hdeleted.
  assert (∀ names ids,
            Forall2 (λ x y, getActionClassIdFromName actionClasses x = Ok y) names ids →
            Forall2 (λ trigger actionClassId,
                       ∃ ac, ac ∈ actionClasses ∧ actionClass_name ac = trigger
                             ∧ actionClass_id ac = actionClassId) names
              (default [] (if bool_decide (0 < length names)%nat then Some ids else None)))
    as Hids.
  { intros names ids Hall. destruct Hall as [|n i names ids Hn Hrest]; [constructor|].
    rewrite bool_decide_eq_true_2 by (simpl; lia). simpl.
    constructor; [by apply getActionClassIdFromName_Ok|].
    eapply Forall2_impl; [exact Hrest|]. intros ? ?. apply getActionClassIdFromName_Ok. }
  split; by apply Hids.
Qed.

End TriggerUpdateProperties.

(** ** Language bindings of [updateSurvey] *)
Section LanguageUpdateProperties.

Lemma default_nonempty_fmap {A B} (g : A → B) (l : list A) :
  default [] (if bool_decide (0 < length l)%nat then Some (g <$> l) else None) = g <$> l.
Proof. destruct l; [done|]. by rewrite bool_decide_eq_true_2 by (simpl; lia). Qed.

Lemma created_language_ids (currentLanguages languages : list TSurveyLanguage) :
  write_languageId
    <$> default [] (languages_create (languagesUpdate currentLanguages languages))
  = languagesToAdd currentLanguages languages.
Proof.
  unfold languagesUpdate. simpl. rewrite default_nonempty_fmap, <- list_fmap_compose.
  apply list_fmap_id.
Qed.

Lemma deleted_language_ids (currentLanguages languages : list TSurveyLanguage) :
  delete_languageId
    <$> default [] (languages_deleteMany (languagesUpdate currentLanguages languages))
  = languagesToRemove currentLanguages languages.
Proof.
  unfold languagesUpdate. simpl. rewrite default_nonempty_fmap, <- list_fmap_compose.
  apply list_fmap_id.
Qed.

(** X8. The language update lists for creation exactly the updated languages
    the survey does not have yet and lists for deletion exactly the current
    ones that are not among the updated languages; no language is listed for
    both. *)
Theorem languagesUpdate_created_deleted (currentLanguages languages : list TSurveyLanguage) :
  let update := languagesUpdate currentLanguages languages in
  let created := write_languageId <$> default [] (languages_create update) in
  let deleted := delete_languageId <$> default [] (languages_deleteMany update) in
  (∀ id, id ∈ created ↔
           id ∈ updatedLanguageIds languages ∧ id ∉ currentLanguageIds currentLanguages)
  ∧ (∀ id, id ∈ deleted ↔
             id ∈ currentLanguageIds currentLanguages ∧ id ∉ updatedLanguageIds languages)
  ∧ (∀ id, id ∈ created → id ∉ deleted).
Proof.
  intros update created deleted. unfold created, deleted, update.
  rewrite created_language_ids, deleted_language_ids.
  unfold languagesToAdd, languagesToRemove.
  split; [|split].
  - intros id. rewrite list_elem_of_filter. tauto.
  - intros id. rewrite list_elem_of_filter. tauto.
  - intros id. rewrite !list_elem_of_filter. tauto.
Qed.

(** X9. The updated languages only count when there are at least two of them:
    an update that carries a single language (or none) lists nothing for
    creation and lists every current language for deletion, the carried one
    included. *)
Theorem languagesUpdate_single_language (currentLanguages languages : list TSurveyLanguage) :
  (length languages ≤ 1)%nat →
  let update := languagesUpdate currentLanguages languages in
  languages_create update = None
  ∧ delete_languageId <$> default [] (languages_deleteMany update)
    = currentLanguageIds currentLanguages.
Proof.
  intros Hsingle update. unfold update. split.
  - unfold languagesUpdate, languagesToAdd, updatedLanguageIds. simpl.
    by rewrite (bool_decide_eq_false_2 (1 < length languages)%nat) by lia.
  - rewrite deleted_language_ids. unfold languagesToRemove, updatedLanguageIds.
    rewrite (bool_decide_eq_false_2 (1 < length languages)%nat) by lia.
    induction (currentLanguageIds currentLanguages) as [|id ids IH]; [done|].
    rewrite filter_cons_True by apply not_elem_of_nil. by rewrite IH.
Qed.

(** X10. The language update never marks two different languages as default:
    every written binding flagged default carries the id of the first language
    the update flags as default. *)
Theorem languagesUpdate_one_default (currentLanguages languages : list TSurveyLanguage) :
  let update := languagesUpdate currentLanguages languages in
  ∀ write,
    write ∈ (languages_updateMany update ++ default [] (languages_create update))%list →
    write_default write = true →
    defaultLanguageId languages = Some (write_languageId write).
Proof.
  intros update write Hin Hdefault. unfold update, languagesUpdate in Hin. simpl in Hin.
  rewrite default_nonempty_fmap in Hin.
  apply elem_of_app in Hin as [Hin|Hin];
    apply list_elem_of_fmap in Hin as (x & -> & _); simpl in *;
    by apply bool_decide_eq_true in Hdefault.
Qed.

End LanguageUpdateProperties.

(** ** Reads through the cache, repeated *)

Lemma cachedVerdict_again (compute compute' : M bool) (key : string) (w w1 : World)
    (verdict : bool) :
  cachedVerdict compute key w = (Ok verdict, w1) →
  cachedVerdict compute' key w1 = (Ok verdict, w1).
Proof.
  unfold cachedVerdict, unstable_cache.
  destruct (cache_verdict (cache w) !! key) as [v|] eqn:Hentry.
  - intros [= <- <-]. by rewrite Hentry.
  - destruct (compute w) as [[v|e] w'] eqn:Hcompute; [|discriminate].
    intros [= <- <-]. simpl. by rewrite lookup_insert_eq.
Qed.

Lemma formatSurveyDateFields_json (s : TSurvey) :
  formatSurveyDateFields (jsonSurvey s) = formatSurveyDateFields s.
Proof.
  unfold formatSurveyDateFields, jsonSurvey. simpl.
  destruct s as [? ? ? ? ? ? ? ? ? ? runOnDate closeOnDate ? ? segment]. simpl.
  f_equal.
  - by destruct runOnDate.
  - by destruct closeOnDate.
  - by destruct segment.
Qed.

Lemma cachedSurveys_again (compute compute' : M (list TSurvey)) (key : string)
    (w w1 : World) (surveys : list TSurvey) :
  cachedSurveys compute key w = (Ok surveys, w1) →
  ∃ again,
    cachedSurveys compute' key w1 = (Ok again, w1)
    ∧ formatSurveyDateFields <$> again = formatSurveyDateFields <$> surveys.
Proof.
  unfold cachedSurveys, unstable_cache.
  destruct (cache_surveys (cache w) !! key) as [v|] eqn:Hentry.
  - intros [= <- <-]. rewrite Hentry. eauto.
  - destruct (compute w) as [[v|e] w'] eqn:Hcompute; [|discriminate].
    intros [= <- <-]. simpl. rewrite lookup_insert_eq. eexists. split; [done|].
    rewrite <- list_fmap_compose. apply list_fmap_ext.
    intros ? s _. apply formatSurveyDateFields_json.
Qed.

Section RepeatedReads.
Context `{Collaborators} `{ResponseCollaborators}.

(** X11. A listing read twice in a row comes back the same: the dates that the
    cache hands back as strings are restored, and the second call does not
    change the world. *)
Theorem getSurveys_repeatable environmentId limit offset filterCriteria
    (w w1 : World) (surveys : list TSurvey) :
  getSurveys environmentId limit offset filterCriteria w = (Ok surveys, w1) →
  getSurveys environmentId limit offset filterCriteria w1 = (Ok surveys, w1).
Proof.
  unfold getSurveys. intros Hrun.
  apply M_bind_Ok in Hrun as (cached & w2 & Hcached & Hrun).
  injection Hrun as <- <-.
  eapply cachedSurveys_again in Hcached as (again & Hagain & Hsame).
  unfold mbind, M_bind. rewrite Hagain. unfold mret, M_ret. by rewrite Hsame.
Qed.

(** X12. The entry of [getSyncSurveys] is keyed by environment and person
    only: once a call has gone through, a call for the same environment and
    person returns the same surveys whatever the device type, the protocol
    version and the time of the call. *)
Theorem getSyncSurveys_key_ignores_device_and_version now now' environmentId personId
    deviceType deviceType' version version' (w w1 : World) (surveys : list TSurvey) :
  getSyncSurveys now environmentId personId deviceType version w = (Ok surveys, w1) →
  getSyncSurveys now' environmentId personId deviceType' version' w1 = (Ok surveys, w1).
Proof.
  unfold getSyncSurveys. intros Hrun.
  apply M_bind_Ok in Hrun as (u & w2 & Hvalid & Hrun).
  apply M_bind_Ok in Hrun as (cached & w3 & Hcached & Hrun).
  injection Hrun as <- <-.
  unfold liftR in Hvalid. injection Hvalid as Hvalid <-.
  eapply cachedSurveys_again in Hcached as (again & Hagain & Hsame).
  unfold mbind at 1, M_bind at 1, liftR. rewrite Hvalid.
  unfold mbind, M_bind. rewrite Hagain. unfold mret, M_ret. by rewrite Hsame.
Qed.

(** X13. The entry of [canUserResolveResponseNote] is keyed by user and note
    only: once a call has gone through, a call for the same user and note
    returns the same verdict for any response id, without reading anything. *)
Theorem canUserResolveResponseNote_key_ignores_response userId responseId responseId'
    responseNoteId (w w1 : World) (verdict : bool) :
  canUserResolveResponseNote userId responseId responseNoteId w = (Ok verdict, w1) →
  canUserResolveResponseNote userId responseId' responseNoteId w1 = (Ok verdict, w1).
Proof. unfold canUserResolveResponseNote. apply cachedVerdict_again. Qed.

(** X14. On a miss, for identifiers that pass the checks,
    [canUserResolveResponseNote] answers true exactly when the response
    exists, one of its notes has the given id and [canUserAccessResponse]
    answers true; for a response that does not exist it answers false. *)
Theorem canUserResolveResponseNote_spec userId responseId responseNoteId (w : World) :
  ZId userId = true → ZId responseNoteId = true →
  userId ≠ "" → responseId ≠ "" → responseNoteId ≠ "" →
  cache_verdict (cache w) !! canUserResolveResponseNote_key userId responseNoteId = None →
  ((canUserResolveResponseNote userId responseId responseNoteId w).1 = Ok true ↔
     ∃ response w1 w2,
       getResponse responseId w = (Ok (Some response), w1)
       ∧ (∃ note, note ∈ response_notes response ∧ responseNote_id note = responseNoteId)
       ∧ canUserAccessResponse userId responseId w1 = (Ok true, w2))
  ∧ (∀ w1, getResponse responseId w = (Ok None, w1) →
       (canUserResolveResponseNote userId responseId responseNoteId w).1 = Ok false).
Proof.
  intros Hu Hn Hune Hrne Hnne Hmiss.
  assert (∀ response,
            existsb (λ note, bool_decide (responseNote_id note = responseNoteId))
              (from_option response_notes [] response) = true
            ↔ ∃ r note, response = Some r ∧ note ∈ response_notes r
                        ∧ responseNote_id note = responseNoteId) as Hexists.
  { intros response. rewrite existsb_exists. split.
    - intros (note & Hin & Heq%bool_decide_eq_true).
      destruct response as [r|]; [|done]. apply list_elem_of_In in Hin. eauto.
    - intros (r & note & -> & Hin & Heq). exists note.
      split; [by apply list_elem_of_In|by apply bool_decide_eq_true]. }
  assert ((canUserResolveResponseNote userId responseId responseNoteId w).1
          = (getResponse responseId w).1 ≫= λ response,
              if existsb (λ note, bool_decide (responseNote_id note = responseNoteId))
                   (from_option response_notes [] response)
              then (canUserAccessResponse userId responseId (getResponse responseId w).2).1
              else Ok false) as ->.
  { unfold canUserResolveResponseNote, cachedVerdict, unstable_cache. rewrite Hmiss.
    unfold canUserResolveResponseNote_compute, validateInputs. simpl.
    rewrite Hu, Hn. simpl. unfold truthyString.
    rewrite !bool_decide_eq_false_2 by done. simpl.
    unfold mbind at 1, M_bind at 1, liftR.
    unfold mbind at 1, M_bind at 1.
    destruct (getResponse responseId w) as [[response|e] w1]; [|done]. simpl.
    destruct (existsb _ _); simpl; [|done].
    by destruct (canUserAccessResponse userId responseId w1) as [[?|?] ?]. }
  split.
  - destruct (getResponse responseId w) as [[response|e] w1] eqn:Hresponse; simpl.
    + destruct (existsb _ _) eqn:Hnote.
      * apply Hexists in Hnote as (r & note & -> & Hin & Hid).
        destruct (canUserAccessResponse userId responseId w1) as [verdict w2] eqn:Haccess.
        simpl. split.
        -- intros ->. exists r, w1, w2. eauto.
        -- intros (r' & w1' & w2' & [= <- <-] & _ & Haccess').
           rewrite Haccess in Haccess'. by injection Haccess' as -> _.
      * split; [done|]. intros (r & w1' & w2' & [= -> <-] & (note & Hin & Hid) & _).
        apply not_true_iff_false in Hnote. destruct Hnote. apply Hexists. eauto 6.
    + split; [done|]. by intros (? & ? & ? & ? & _).
  - intros w1 ->. done.
Qed.

End RepeatedReads.

(** ** The eligibility pipeline as a whole *)
Section PipelineAsAWhole.
Context `{Collaborators}.

Lemma segmentStage_subseteq environmentId person personActionClassIds personUserId
    deviceType version (surveys kept : list TSurvey) (survey : TSurvey) :
  segmentStage environmentId person personActionClassIds personUserId deviceType
    version surveys = Ok kept →
  survey ∈ kept → survey ∈ surveys.
Proof.
  unfold segmentStage. intros Hrun Hin.
  apply result_bind_Ok in Hrun as (resolved & Hmap & Hkept).
  injection Hkept as <-. apply mapMr_Forall2 in Hmap.
  apply list_elem_of_omap in Hin as (verdict & Hverdict & ->).
  induction Hmap as [|s v surveys resolved Hs _ IH]; [by apply elem_of_nil in Hverdict|].
  apply elem_of_cons in Hverdict as [<-|Hverdict]; [|right; by apply IH].
  apply evaluateSurveySegment_Ok in Hs as [[[= ->]|?] _]; [by left|done].
Qed.

Lemma cachedSurveys_store (compute : M (list TSurvey)) (key : string) (w w' : World) r :
  (∀ w0 r0 w0', compute w0 = (r0, w0') → store w0' = store w0) →
  cachedSurveys compute key w = (r, w') → store w' = store w.
Proof.
  intros Hcompute. unfold cachedSurveys, unstable_cache.
  destruct (cache_surveys (cache w) !! key); [by intros [= _ <-]|].
  destruct (compute w) as [[v|e] w1] eqn:Hrun; intros [= _ <-]; simpl;
    by eapply Hcompute.
Qed.

Lemma getSurveys_store environmentId limit offset filterCriteria (w w' : World) r :
  getSurveys environmentId limit offset filterCriteria w = (r, w') → store w' = store w.
Proof.
  unfold getSurveys, mbind, M_bind.
  destruct (cachedSurveys _ _ w) as [[cached|e] w1] eqn:Hcached.
  - intros [= _ <-]. eapply cachedSurveys_store; [|exact Hcached].
    intros w0 r0 w0'. unfold mbind, M_bind, liftR, getStore.
    destruct (validateInputs _); by intros [= _ <-].
  - intros [= _ <-]. eapply cachedSurveys_store; [|exact Hcached].
    intros w0 r0 w0'. unfold mbind, M_bind, liftR, getStore.
    destruct (validateInputs _); by intros [= _ <-].
Qed.

Lemma formatSurveyDateFields_meetsDisplayOption displays (s : TSurvey) :
  meetsDisplayOption displays (formatSurveyDateFields s) = meetsDisplayOption displays s.
Proof. done. Qed.

Lemma formatSurveyDateFields_meetsRecontactDays now product displays (s : TSurvey) :
  meetsRecontactDays now product displays (formatSurveyDateFields s)
  = meetsRecontactDays now product displays s.
Proof. done. Qed.

(** X15. What [getSyncSurveys] computes on a miss is sound: the product and
    the person exist, and every survey handed out is in progress, of type
    "web", meets its display option against the person's displays and is
    outside its recontact window. *)
Theorem getSyncSurveys_computed_sound now environmentId personId deviceType version
    (w w' : World) (surveys : list TSurvey) :
  cache_surveys (cache w) !! ("getSyncSurveys-" +:+ environmentId +:+ "-" +:+ personId)
    = None →
  getSyncSurveys now environmentId personId deviceType version w = (Ok surveys, w') →
  ∃ product person,
    store_products (store w) !! environmentId = Some product
    ∧ (if bool_decide (personId = "legacy")
       then person = mkPerson "legacy" None None
       else store_people (store w) !! personId = Some person)
    ∧ ∀ survey, survey ∈ surveys →
        survey_status survey = "inProgress"
        ∧ survey_type survey = "web"
        ∧ meetsDisplayOption
            (default [] (store_displays (store w) !! person_id person)) survey = Ok true
        ∧ meetsRecontactDays now product
            (default [] (store_displays (store w) !! person_id person)) survey = true.
Proof.
  intros Hmiss Hrun. unfold getSyncSurveys in Hrun.
  apply M_bind_Ok in Hrun as (u & w1 & Hvalid & Hrun).
  unfold liftR in Hvalid. injection Hvalid as _ <-.
  apply M_bind_Ok in Hrun as (cached & w2 & Hcached & Hrun).
  injection Hrun as <- <-.
  unfold cachedSurveys, unstable_cache in Hcached. rewrite Hmiss in Hcached.
  match type of Hcached with
  | match ?c w with _ => _ end = _ => destruct (c w) as [[computed|e] w3] eqn:Hcompute
  end; [|discriminate].
  injection Hcached as <- _.
  apply M_bind_Ok in Hcompute as (product & w4 & Hproduct & Hcompute).
  unfold getProductByEnvironmentId, getStore, mbind, M_bind in Hproduct.
  injection Hproduct as <- <-.
  destruct (store_products (store w) !! environmentId) as [product|] eqn:Hproduct;
    [|discriminate].
  apply M_bind_Ok in Hcompute as ([person|] & w5 & Hperson & Hcompute); [|discriminate].
  assert (w5 = w
          ∧ if bool_decide (personId = "legacy")
            then person = mkPerson "legacy" None None
            else store_people (store w) !! personId = Some person) as [-> Hfound].
  { case_bool_decide.
    - by injection Hperson as <- <-.
    - unfold getPerson, getStore, mbind, M_bind in Hperson. by injection Hperson as -> <-. }
  exists product, person. split; [done|]. split; [done|].
  apply M_bind_Ok in Hcompute as (listed & w6 & Hlisted & Hcompute).
  apply getSurveys_store in Hlisted as Hstore.
  assert (∀ survey, survey ∈ computed →
            survey_status survey = "inProgress"
            ∧ survey_type survey = "web"
            ∧ meetsDisplayOption
                (default [] (store_displays (store w) !! person_id person)) survey = Ok true
            ∧ meetsRecontactDays now product
                (default [] (store_displays (store w) !! person_id person)) survey = true)
    as Hcomputed.
  { match type of Hcompute with (if ?b then _ else _) _ = _ => destruct b end.
    { injection Hcompute as <- _. intros s Hs. by apply elem_of_nil in Hs. }
    apply M_bind_Ok in Hcompute as (displays & w7 & Hdisplays & Hcompute).
    unfold getDisplaysByPersonId, getStore, mbind, M_bind in Hdisplays.
    injection Hdisplays as <- <-. rewrite Hstore in Hcompute.
    apply M_bind_Ok in Hcompute as (shown & w8 & Hshown & Hcompute).
    unfold liftR in Hshown. injection Hshown as Hshown <-.
    assert (∀ survey,
              survey ∈ filter (λ survey, meetsRecontactDays now product
                                 (default [] (store_displays (store w) !! person_id person))
                                 survey = true) shown →
              survey_status survey = "inProgress"
              ∧ survey_type survey = "web"
              ∧ meetsDisplayOption
                  (default [] (store_displays (store w) !! person_id person)) survey
                = Ok true
              ∧ meetsRecontactDays now product
                  (default [] (store_displays (store w) !! person_id person)) survey = true)
      as Hkept.
    { intros s [Hrecontact Hs]%list_elem_of_filter.
      apply (filterM_Ok_elem_of _ _ _ s Hshown) in Hs as [Hs Hdisplay].
      unfold keepRunningWebSurveys in Hs.
      apply list_elem_of_filter in Hs as [[? ?] _]. done. }
    match type of Hcompute with (if ?b then _ else _) _ = _ => destruct b end.
    { injection Hcompute as <- _. intros s Hs. by apply elem_of_nil in Hs. }
    match type of Hcompute with (if ?b then _ else _) _ = _ => destruct b end.
    { injection Hcompute as <- _. exact Hkept. }
    apply M_bind_Ok in Hcompute as (personActions & w9 & _ & Hcompute).
    unfold liftR in Hcompute. injection Hcompute as Hstage _.
    intros s Hs. apply Hkept. eapply segmentStage_subseteq; [exact Hstage|done]. }
  intros survey (s & -> & Hs)%list_elem_of_fmap.
  rewrite formatSurveyDateFields_meetsDisplayOption,
    formatSurveyDateFields_meetsRecontactDays.
  destruct (Hcomputed s Hs) as (? & ? & ? & ?). done.
Qed.

(** X16. On a miss, [getSyncSurveys] throws "Product not found" when the
    environment has no product and "Person not found" when the person, other
    than the legacy one, does not exist; nothing is computed or cached. *)
Theorem getSyncSurveys_missing_product_or_person now environmentId personId deviceType
    version (w : World) :
  ZId environmentId = true →
  cache_surveys (cache w) !! ("getSyncSurveys-" +:+ environmentId +:+ "-" +:+ personId)
    = None →
  (store_products (store w) !! environmentId = None →
     getSyncSurveys now environmentId personId deviceType version w
     = (Err (GenericError "Product not found"), w))
  ∧ (is_Some (store_products (store w) !! environmentId) →
     personId ≠ "legacy" →
     store_people (store w) !! personId = None →
       getSyncSurveys now environmentId personId deviceType version w
       = (Err (GenericError "Person not found"), w)).
Proof.
  intros Hvalid Hmiss.
  assert (∀ compute r,
            compute w = (Err r, w) →
            (liftR (validateInputs [ZId environmentId]);;
             surveys ← cachedSurveys compute
                         ("getSyncSurveys-" +:+ environmentId +:+ "-" +:+ personId);
             mret (formatSurveyDateFields <$> surveys)) w = (Err r, w)) as Hthrows.
  { intros compute r Hcompute. unfold validateInputs. simpl. rewrite Hvalid. simpl.
    unfold mbind, M_bind, liftR, cachedSurveys, unstable_cache.
    by rewrite Hmiss, Hcompute. }
  split.
  - intros Hnone. unfold getSyncSurveys. apply Hthrows.
    unfold getProductByEnvironmentId, getStore, mbind, M_bind. by rewrite Hnone.
  - intros [product Hproduct] Hlegacy Hnone. unfold getSyncSurveys. apply Hthrows.
    unfold getProductByEnvironmentId, getPerson, getStore, mbind, M_bind.
    rewrite Hproduct, (bool_decide_eq_false_2 _ Hlegacy).
    unfold mret, M_ret. simpl. by rewrite Hnone.
Qed.

End PipelineAsAWhole.

(** ** Rejections of [updateSurvey] and [createSurvey] *)
Section Rejections.
Context `{Collaborators}.

Lemma revalidateSurveyByActionClassName_cons actionClasses name names (w : World) :
  revalidateSurveyByActionClassName actionClasses (name :: names) w
  = match getActionClassIdFromName actionClasses name with
    | Ok actionClassId =>
        revalidateSurveyByActionClassName actionClasses names
          (mkWorld (store w)
             (surveyCache_revalidate (mkRevalidate None None None (Some actionClassId))
                (cache w)))
    | Err e => (Err e, w)
    end.
Proof.
  unfold revalidateSurveyByActionClassName. simpl. unfold mbind, M_bind, liftR.
  by destruct (getActionClassIdFromName actionClasses name).
Qed.

Lemma revalidateSurveyByActionClassName_unknown actionClasses names name (w : World) :
  name ∈ names →
  (∀ ac, ac ∈ actionClasses → actionClass_name ac ≠ name) →
  ∃ w', revalidateSurveyByActionClassName actionClasses names w
        = (Err (TypeError "Cannot read properties of undefined (reading 'id')"), w')
        ∧ store w' = store w.
Proof.
  intros Hin Hunknown. revert w.
  induction names as [|n names IH]; intros w; [by apply elem_of_nil in Hin|].
  rewrite revalidateSurveyByActionClassName_cons.
  destruct (getActionClassIdFromName actionClasses n) as [id|e] eqn:Hn.
  - apply elem_of_cons in Hin as [->|Hin].
    { by rewrite getActionClassIdFromName_unknown in Hn. }
    destruct (IH Hin (mkWorld (store w) (surveyCache_revalidate
                       (mkRevalidate None None None (Some id)) (cache w))))
      as (w' & -> & Hstore). eauto.
  - rewrite (getActionClassIdFromName_Err _ _ _ Hn). eauto.
Qed.

(** X17. [updateSurvey] on a survey that is neither stored nor cached throws
    [ResourceNotFoundError("Survey", id)] and writes nothing to the store. *)
Theorem updateSurvey_not_found (now : Z) (updatedSurvey : TSurvey) (w : World) :
  ZSurveyWithRefinements updatedSurvey = true →
  ZId (survey_id updatedSurvey) = true →
  cache_survey (cache w) !! ("getSurvey-" +:+ survey_id updatedSurvey) = None →
  (∀ row, row ∈ store_surveys (store w) → survey_id row ≠ survey_id updatedSurvey) →
  ∃ w', updateSurvey now updatedSurvey w
        = (Err (ResourceNotFoundError "Survey" (survey_id updatedSurvey)), w')
        ∧ store w' = store w.
Proof.
  intros Hvalid Hid Hmiss Habsent.
  assert (head (filter (λ row : PrismaSurvey, survey_id row = survey_id updatedSurvey)
                  (store_surveys (store w))) = None) as Hhead.
  { apply head_None, length_zero_iff_nil, length_filter_zero.
    intros row Hrow. by apply Habsent. }
  unfold updateSurvey, validateInputs. simpl. rewrite Hvalid. simpl.
  unfold mbind at 1, M_bind at 1, liftR.
  unfold mbind at 1, M_bind at 1, getActionClasses, getStore.
  unfold mbind at 1, M_bind at 1. unfold mret at 1, M_ret at 1.
  unfold mbind at 1, M_bind at 1.
  unfold getSurvey, cachedSurvey, unstable_cache.
  unfold mbind at 1, M_bind at 1. rewrite Hmiss.
  unfold validateInputs. simpl. rewrite Hid. simpl.
  unfold mbind at 1, M_bind at 1, liftR.
  unfold mbind at 1, M_bind at 1, getStore. rewrite Hhead.
  simpl. eauto.
Qed.

(** X18. [createSurvey] rejects a body before anything is written: a body with
    both [triggers] and [inlineTriggers] throws [InvalidInputError] and leaves
    the world as it is, and a body with a trigger that names no action class
    of the environment throws the [TypeError] of [getActionClassIdFromName]
    and leaves the store as it is. *)
Theorem createSurvey_rejects_before_writing (environmentId : string)
    (surveyBody : TSurveyInput) (w : World) :
  ZId environmentId = true →
  (is_Some (input_triggers surveyBody) → is_Some (input_inlineTriggers surveyBody) →
     createSurvey environmentId surveyBody w
     = (Err (InvalidInputError "Survey body cannot have both triggers and inlineTriggers"),
        w))
  ∧ (∀ triggers trigger,
       input_triggers surveyBody = Some triggers →
       input_inlineTriggers surveyBody = None →
       trigger ∈ triggers →
       (∀ ac, ac ∈ store_actionClasses (store w) →
              actionClass_environmentId ac = environmentId →
              actionClass_name ac ≠ trigger) →
       ∃ w', createSurvey environmentId surveyBody w
             = (Err (TypeError "Cannot read properties of undefined (reading 'id')"), w')
             ∧ store w' = store w).
Proof.
  intros Hvalid. split.
  - intros Htriggers Hinline. unfold createSurvey, validateInputs. simpl.
    rewrite Hvalid. simpl. unfold mbind, M_bind, liftR.
    by rewrite !bool_decide_eq_true_2 by done.
  - intros triggers trigger Htriggers Hinline Hin Hunknown.
    unfold createSurvey, validateInputs. simpl. rewrite Hvalid. simpl.
    unfold mbind at 1, M_bind at 1, liftR.
    rewrite Htriggers, Hinline.
    rewrite (bool_decide_eq_false_2 (is_Some None)) by (by intros [? ?]).
    rewrite andb_false_r.
    unfold mbind at 1, M_bind at 1.
    unfold mbind at 1, M_bind at 1, getActionClasses, getStore.
    unfold mbind at 1, M_bind at 1. unfold mret at 1, M_ret at 1.
    simpl.
    destruct (revalidateSurveyByActionClassName_unknown
                (filter (λ ac, actionClass_environmentId ac = environmentId)
                   (store_actionClasses (store w))) triggers trigger w Hin)
      as (w' & -> & Hstore).
    + intros ac [Henv Hac]%list_elem_of_filter. by apply Hunknown.
    + eauto.
Qed.

End Rejections.

(** ** What the migration leaves alone *)
Section MigrationFrame.
Import Migration.

Lemma migratedType_not_web (id : string) (db : Database) : migratedType id db ≠ "web".
Proof. unfold migratedType. by destruct (carriesPersonReference id db). Qed.

(** X19. The migration is idempotent: after it has committed no survey of type
    "web" is left, and running it again commits without changing anything. *)
Theorem main_idempotent (db db' : Database) :
  main db = Ok db' →
  (∀ s', s' ∈ surveys db' → sv_type s' ≠ "web") ∧ main db' = Ok db'.
Proof.
  intros Hrun. unfold main in Hrun.
  apply migrateAll_inv in Hrun as [Hev Hall].
  assert (∀ s', s' ∈ surveys db' → sv_type s' ≠ "web") as Hnone.
  { intros s' Hin' Hweb'.
    destruct Hev as (Hr & _ & Hs & _).
    destruct (Hs s' Hin') as (s & Hin & Hid & _ & [Hty|Hty]).
    - destruct (Hall (s, sv_segmentId s ≫= λ g, segment_findUnique g db)) as [Htype _].
      { apply survey_findMany_web_elem_of. simpl. split; [done|]. split; [congruence|done]. }
      simpl in Htype. specialize (Htype s' Hin' Hid).
      rewrite Hweb' in Htype. symmetry in Htype. by apply migratedType_not_web in Htype.
    - rewrite Hweb' in Hty. symmetry in Hty. by apply migratedType_not_web in Hty. }
  split; [done|]. unfold main, survey_findMany_web.
  assert (filter (λ s, sv_type s = "web") (surveys db') = []) as ->; [|done].
  apply length_zero_iff_nil, length_filter_zero. exact Hnone.
Qed.

Lemma Forall2_trans_keeps (ids : list string) (l1 l2 l3 : list SurveyRow) :
  Forall2 (λ s s', sv_id s' = sv_id s ∧ (sv_type s' = sv_type s ∨ sv_id s ∈ ids)) l1 l2 →
  Forall2 (λ s s', sv_id s' = sv_id s ∧ (sv_type s' = sv_type s ∨ sv_id s ∈ ids)) l2 l3 →
  Forall2 (λ s s', sv_id s' = sv_id s ∧ (sv_type s' = sv_type s ∨ sv_id s ∈ ids)) l1 l3.
Proof.
  intros H12. revert l3. induction H12 as [|s1 s2 l1 l2 [Hid Hty] _ IH]; intros l3 H23.
  - by apply Forall2_nil_inv_l in H23 as ->.
  - apply Forall2_cons_inv_l in H23 as (s3 & l3' & [Hid' Hty'] & Hrest & ->).
    constructor; [|by apply IH]. split; [congruence|].
    destruct Hty' as [Hty'|Hin']; [|right; by rewrite <- Hid].
    destruct Hty as [Hty|Hin]; [left; congruence|by right].
Qed.

Lemma survey_update_keeps (ids : list string) (id : string) (f : SurveyRow → SurveyRow)
    (db db' : Database) :
  (∀ s, sv_id (f s) = sv_id s) → id ∈ ids →
  survey_update id f db = Ok db' →
  Forall2 (λ s s', sv_id s' = sv_id s ∧ (sv_type s' = sv_type s ∨ sv_id s ∈ ids))
    (surveys db) (surveys db').
Proof.
  intros Hf Hid Hup. apply survey_update_elem_of in Hup as (_ & _ & _ & ->).
  apply Forall2_fmap_r, Forall_Forall2_diag, Forall_forall. intros s _. simpl.
  destruct (bool_decide (sv_id s = id)) eqn:Hs; [|auto].
  apply bool_decide_eq_true in Hs. split; [done|]. right. by rewrite Hs.
Qed.

Lemma dropSegments_keeps (ids : list string) (gone : SegmentRow → Prop)
    `{∀ g, Decision (gone g)} (db : Database) :
  Forall2 (λ s s', sv_id s' = sv_id s ∧ (sv_type s' = sv_type s ∨ sv_id s ∈ ids))
    (surveys db) (surveys (dropSegments gone db)).
Proof.
  unfold dropSegments. simpl.
  apply Forall2_fmap_r, Forall_Forall2_diag, Forall_forall. intros s _. simpl.
  destruct (sv_segmentId s); [|auto]. destruct (bool_decide _); auto.
Qed.

Lemma migrateSurvey_keeps_surveys (ids : list string)
    (webSurvey : SurveyRow * option SegmentRow) (db db' : Database) :
  sv_id webSurvey.1 ∈ ids →
  migrateSurvey webSurvey db = Ok db' →
  Forall2 (λ s s', sv_id s' = sv_id s ∧ (sv_type s' = sv_type s ∨ sv_id s ∈ ids))
    (surveys db) (surveys db').
Proof.
  intros Hid. rewrite migrateSurvey_unfold.
  destruct (carriesPersonReference _ _); [by apply survey_update_keeps|].
  intros Hrun.
  apply result_bind_Ok in Hrun as (db1 & Hup & Hrun).
  apply result_bind_Ok in Hrun as (db2 & Hseg & Hrun).
  injection Hrun as <-.
  apply (survey_update_keeps ids) in Hup; [|done..].
  eapply Forall2_trans_keeps; [exact Hup|].
  eapply Forall2_trans_keeps; [|apply dropSegments_keeps].
  destruct (webSurvey.2) as [segment|].
  - destruct (sg_isPrivate segment).
    + unfold segment_delete in Hseg. case_bool_decide; [|discriminate].
      injection Hseg as <-. apply dropSegments_keeps.
    + by apply (survey_update_keeps ids) in Hseg.
  - injection Hseg as <-. apply Forall_Forall2_diag, Forall_forall. auto.
Qed.

Lemma migrateAll_keeps_surveys (ids : list string)
    (webSurveys : list (SurveyRow * option SegmentRow)) (db db' : Database) :
  (∀ w, w ∈ webSurveys → sv_id w.1 ∈ ids) →
  migrateAll webSurveys db = Ok db' →
  Forall2 (λ s s', sv_id s' = sv_id s ∧ (sv_type s' = sv_type s ∨ sv_id s ∈ ids))
    (surveys db) (surveys db').
Proof.
  revert db. induction webSurveys as [|w rest IH]; intros db Hids Hrun.
  - injection Hrun as <-. apply Forall_Forall2_diag, Forall_forall. auto.
  - simpl in Hrun. apply result_bind_Ok in Hrun as (db1 & Hstep & Hrun).
    eapply Forall2_trans_keeps.
    + eapply migrateSurvey_keeps_surveys; [|exact Hstep]. apply Hids. by left.
    + apply IH; [|done]. intros w' Hw'. apply Hids. by right.
Qed.

(** X20. The migration neither adds, removes nor reorders surveys and never
    touches responses; a survey keeps its type unless its id is the id of a
    survey of type "web". *)
Theorem main_frame (db db' : Database) :
  main db = Ok db' →
  responses db' = responses db
  ∧ Forall2 (λ s s',
               sv_id s' = sv_id s
               ∧ (sv_type s' = sv_type s
                  ∨ ∃ web, web ∈ surveys db ∧ sv_type web = "web" ∧ sv_id web = sv_id s))
      (surveys db) (surveys db').
Proof.
  intros Hrun. unfold main in Hrun. split.
  - by apply migrateAll_inv in Hrun as [(? & _) _].
  - apply (migrateAll_keeps_surveys
             (sv_id <$> filter (λ s, sv_type s = "web") (surveys db))) in Hrun.
    + eapply Forall2_impl; [exact Hrun|]. intros s s' [Hid [Hty|Hin]]; [auto|].
      split; [done|]. right.
      apply list_elem_of_fmap in Hin as (web & Hweb & [? ?]%list_elem_of_filter). eauto.
    + intros w (Hin & Hweb & _)%survey_findMany_web_elem_of.
      apply list_elem_of_fmap. exists w.1. split; [done|]. by apply list_elem_of_filter.
Qed.

Lemma migrateAll_keeps_segment (webSurveys : list (SurveyRow * option SegmentRow))
    (db db' : Database) (r : SegmentRow) :
  sg_isPrivate r = false →
  (∀ w segment, w ∈ webSurveys → w.2 = Some segment → sg_isPrivate segment = true →
                sg_id r ≠ sg_id segment) →
  migrateAll webSurveys db = Ok db' →
  r ∈ segments db → r ∈ segments db'.
Proof.
  intros Hshared. revert db.
  induction webSurveys as [|w rest IH]; intros db Hids Hrun Hin.
  - by injection Hrun as <-.
  - simpl in Hrun. apply result_bind_Ok in Hrun as (db1 & Hstep & Hrun).
    apply (IH db1); [|done|].
    + intros w' segment Hw'. apply Hids. by right.
    + apply (migrateSurvey_keeps w db db1); [done|done| |].
      * intros segment. apply Hids. by left.
      * intros [_ Hprivate]. congruence.
Qed.

(** X21. The migration only deletes private segments: a shared segment whose
    id is not also the id of a private segment is still there afterwards. *)
Theorem main_keeps_shared_segments (db db' : Database) (r : SegmentRow) :
  main db = Ok db' →
  r ∈ segments db → sg_isPrivate r = false →
  (∀ g, g ∈ segments db → sg_isPrivate g = true → sg_id g ≠ sg_id r) →
  r ∈ segments db'.
Proof.
  intros Hrun Hin Hshared Hids. unfold main in Hrun.
  apply (migrateAll_keeps_segment _ _ _ r Hshared) in Hrun; [done| |done].
  intros w segment (_ & _ & Hsnap)%survey_findMany_web_elem_of Hsegment Hprivate Hsame.
  rewrite Hsnap in Hsegment. destruct (sv_segmentId w.1) as [g|]; [|done].
  apply segment_findUnique_Some in Hsegment as [Hseg _].
  by apply (Hids segment Hseg Hprivate).
Qed.

End MigrationFrame.

(** ** Limits of a listing *)
Section ListingLimits.
Context `{Collaborators}.

Lemma getSurveys_miss environmentId limit offset filterCriteria (w : World) :
  ZId environmentId = true →
  cache_surveys (cache w)
    !! ("getSurveys-" +:+ environmentId +:+ "-" +:+ showOptional limit +:+ "-"
          +:+ showOptional offset +:+ "-" +:+ stringifyFilterCriteria filterCriteria)
    = None →
  let matching :=
    buildOrderByClause filterCriteria
      (filter (λ row, survey_environmentId row = environmentId
                       ∧ buildWhereClause filterCriteria row = true)
              (store_surveys (store w))) in
  let skipped := from_option (λ k, drop k matching) matching (truthyNumber offset) in
  (getSurveys environmentId limit offset filterCriteria w).1
  = Ok (formatSurveyDateFields
          <$> (transformPrismaSurvey
                 <$> from_option (λ n, take n skipped) skipped (truthyNumber limit))).
Proof.
  intros Hvalid Hmiss. unfold getSurveys, cachedSurveys, unstable_cache.
  unfold mbind at 1, M_bind at 1. rewrite Hmiss.
  unfold validateInputs. simpl. by rewrite Hvalid.
Qed.

(** X22. [take: limit ? limit : undefined]: on a miss, a listing with a
    positive limit has at most that many surveys, and a limit of zero does not
    limit the listing: it lists what a call without a limit lists. *)
Theorem getSurveys_limit environmentId offset filterCriteria (w : World) :
  ZId environmentId = true →
  (∀ limit surveys,
     cache_surveys (cache w)
       !! ("getSurveys-" +:+ environmentId +:+ "-" +:+ showOptional (Some (S limit))
             +:+ "-" +:+ showOptional offset +:+ "-"
             +:+ stringifyFilterCriteria filterCriteria) = None →
     (getSurveys environmentId (Some (S limit)) offset filterCriteria w).1 = Ok surveys →
     (length surveys ≤ S limit)%nat)
  ∧ (cache_surveys (cache w)
       !! ("getSurveys-" +:+ environmentId +:+ "-" +:+ showOptional (Some 0%nat)
             +:+ "-" +:+ showOptional offset +:+ "-"
             +:+ stringifyFilterCriteria filterCriteria) = None →
     cache_surveys (cache w)
       !! ("getSurveys-" +:+ environmentId +:+ "-" +:+ showOptional None
             +:+ "-" +:+ showOptional offset +:+ "-"
             +:+ stringifyFilterCriteria filterCriteria) = None →
     (getSurveys environmentId (Some 0%nat) offset filterCriteria w).1
     = (getSurveys environmentId None offset filterCriteria w).1).
Proof.
  intros Hvalid. split.
  - intros limit surveys Hmiss.
    pose proof (getSurveys_miss _ _ _ _ _ Hvalid Hmiss) as Hlisted. simpl in Hlisted.
    rewrite Hlisted. intros [= <-]. rewrite !length_fmap, length_take. lia.
  - intros Hzero Hnone.
    pose proof (getSurveys_miss _ _ _ _ _ Hvalid Hzero) as Hlisted.
    pose proof (getSurveys_miss _ _ _ _ _ Hvalid Hnone) as Hall.
    simpl in Hlisted, Hall. by rewrite Hlisted, Hall.
Qed.

End ListingLimits.

(** ** The further properties on concrete inputs *)
Section FurtherExamples.
#[local] Existing Instance Sample.collaborators.
#[local] Existing Instance SampleResponses.collaborators.

(** X1: a survey without segment stays, next to one whose segment asks for
    another plan. *)
Lemma segmentStage_keeps_sublist_witness :
  let person := Sample.person [("plan", AttrString "pro")] in
  let plain := Sample.survey "plain" "web" "inProgress" "respondMultiple" None None in
  let free :=
    Sample.survey "free" "web" "inProgress" "respondMultiple" None
      (Some (Sample.segment [FilterLeaf None (RootAttribute "plan") "equals" "free"])) in
  ∃ kept,
    segmentStage "env1" person [] (AttrString "u1") "desktop" None [free; plain] = Ok kept
    ∧ plain ∈ kept.
Proof.
  intros person plain free.
  destruct (segmentStage "env1" person [] (AttrString "u1") "desktop" None [free; plain])
    as [kept|e] eqn:Hrun; [|by vm_compute in Hrun].
  exists kept. split; [done|].
  destruct (segmentStage_keeps_sublist _ _ _ _ _ _ _ _ Hrun) as [_ Hkeeps].
  apply Hkeeps; [by right; left|reflexivity].
Defined.

(** X2: with a protocol version the verdict of [evaluateSegment] decides. *)
Lemma structured_segment_follows_evaluateSegment_witness :
  let person := Sample.person [("plan", AttrString "pro")] in
  let segment :=
    Sample.segment [FilterLeaf None (RootAttribute "plan") "equals" "free"] in
  let survey :=
    Sample.survey "s1" "web" "inProgress" "respondMultiple" None (Some segment) in
  evaluateSurveySegment "env1" person [] (AttrString "u1") "desktop" (Some "1.7.0") survey
  = Ok (Some survey).
Proof.
  intros person segment survey.
  destruct (structured_segment_follows_evaluateSegment "env1" person [] (AttrString "u1")
              "desktop" (Some "1.7.0") survey segment eq_refl eq_refl) as [Hverdict _].
  exact (Hverdict true eq_refl).
Defined.

(** X5: the same trigger again, and an empty name. *)
Lemma processTriggerUpdates_unchanged_witness :
  processTriggerUpdates ["signup"; ""] ["signup"] [] Sample.world
  = (Ok (mkTriggerUpdate None None), Sample.world).
Proof.
  apply processTriggerUpdates_unchanged.
  - intros trigger [->|[->|Hin]%elem_of_cons]%elem_of_cons.
    + right. by left.
    + by left.
    + by apply elem_of_nil in Hin.
  - intros trigger [->|Hin]%elem_of_cons; [by left|by apply elem_of_nil in Hin].
Defined.

(** X6: a new trigger that names no action class. *)
Lemma processTriggerUpdates_unknown_trigger_witness :
  processTriggerUpdates ["ghost"] [] [mkActionClass "ac1" "signup" "env1"] Sample.world
  = (Err (TypeError "Cannot read properties of undefined (reading 'id')"), Sample.world).
Proof.
  apply (processTriggerUpdates_unknown_trigger _ _ _ _ "ghost").
  - intros ac [->|Hin]%elem_of_cons; [done|by apply elem_of_nil in Hin].
  - left. split; [by left|]. split; [done|]. apply not_elem_of_nil.
Defined.

(** X7: a new trigger that names an action class. *)
Lemma processTriggerUpdates_spec_witness :
  ∃ update w',
    processTriggerUpdates ["signup"] [] [mkActionClass "ac1" "signup" "env1"] Sample.world
    = (Ok update, w')
    ∧ store w' = store Sample.world.
Proof.
  destruct (processTriggerUpdates ["signup"] [] [mkActionClass "ac1" "signup" "env1"]
              Sample.world) as [[update|e] w'] eqn:Hrun; [|by vm_compute in Hrun].
  exists update, w'. split; [done|].
  by destruct (processTriggerUpdates_spec _ _ _ _ _ _ Hrun) as [Hstore _].
Defined.

(** X9: the survey has English and German; the update lists English only. *)
Lemma languagesUpdate_single_language_witness :
  let english := mkSurveyLanguage (mkLanguage "en" "en") true true in
  let german := mkSurveyLanguage (mkLanguage "de" "de") false true in
  languages_create (languagesUpdate [english; german] [english]) = None
  ∧ delete_languageId
      <$> default [] (languages_deleteMany (languagesUpdate [english; german] [english]))
    = ["en"; "de"].
Proof.
  intros english german.
  destruct (languagesUpdate_single_language [english; german] [english]) as [Hcreate Hdelete].
  - simpl. lia.
  - split; [exact Hcreate|exact Hdelete].
Defined.

(** X10: German becomes the default. *)
Lemma languagesUpdate_one_default_witness :
  let english := mkSurveyLanguage (mkLanguage "en" "en") true true in
  let german := mkSurveyLanguage (mkLanguage "de" "de") true true in
  defaultLanguageId [mkSurveyLanguage (mkLanguage "en" "en") false true; german]
  = Some "de".
Proof.
  intros english german.
  apply (languagesUpdate_one_default [english]
           [mkSurveyLanguage (mkLanguage "en" "en") false true; german]
           (mkLanguageWrite "de" true true)).
  - right. left.
  - reflexivity.
Defined.

(** X11: the listing of "env1", twice. *)
Lemma getSurveys_repeatable_witness :
  ∃ surveys w1,
    getSurveys "env1" None None None Sample.pipelineWorld = (Ok surveys, w1)
    ∧ getSurveys "env1" None None None w1 = (Ok surveys, w1).
Proof.
  destruct (getSurveys "env1" None None None Sample.pipelineWorld)
    as [[surveys|e] w1] eqn:Hrun; [|by vm_compute in Hrun].
  exists surveys, w1. split; [done|].
  exact (getSurveys_repeatable _ _ _ _ _ _ _ Hrun).
Defined.

(** X12: a legacy desktop call, then a versioned phone call a day later. *)
Lemma getSyncSurveys_key_ignores_device_and_version_witness :
  ∃ surveys w1,
    getSyncSurveys (20 * Sample.day) "env1" "p1" "desktop" None Sample.pipelineWorld
    = (Ok surveys, w1)
    ∧ getSyncSurveys (21 * Sample.day) "env1" "p1" "phone" (Some "1.7.0") w1
      = (Ok surveys, w1).
Proof.
  destruct (getSyncSurveys (20 * Sample.day) "env1" "p1" "desktop" None
              Sample.pipelineWorld) as [[surveys|e] w1] eqn:Hrun;
    [|by vm_compute in Hrun].
  exists surveys, w1. split; [done|].
  exact (getSyncSurveys_key_ignores_device_and_version _ _ _ _ _ _ _ _ _ _ _ Hrun).
Defined.

(** X13: the verdict for note "n1" on response "r1" is handed out for "r2",
    which has no notes. *)
Lemma canUserResolveResponseNote_key_ignores_response_witness :
  ∃ w1,
    canUserResolveResponseNote "u1" "r1" "n1" Sample.world = (Ok true, w1)
    ∧ canUserResolveResponseNote "u1" "r2" "n1" w1 = (Ok true, w1).
Proof.
  destruct (canUserResolveResponseNote "u1" "r1" "n1" Sample.world)
    as [[[|]|e] w1] eqn:Hrun; [|by vm_compute in Hrun..].
  exists w1. split; [done|].
  exact (canUserResolveResponseNote_key_ignores_response _ _ _ _ _ _ _ Hrun).
Defined.

(** X14: "u1" may resolve note "n1" of response "r1"; response "r9" does not
    exist. *)
Lemma canUserResolveResponseNote_spec_witness :
  (canUserResolveResponseNote "u1" "r1" "n1" Sample.world).1 = Ok true
  ∧ (canUserResolveResponseNote "u1" "r9" "n1" Sample.world).1 = Ok false.
Proof.
  split.
  - destruct (canUserResolveResponseNote_spec "u1" "r1" "n1" Sample.world)
      as [Hiff _]; [reflexivity|reflexivity|done|done|done|reflexivity|].
    apply Hiff.
    exists (mkResponse "r1" "s1"
              [mkResponseNote "n1" "a note" (mkUser "u1" "Ada");
               mkResponseNote "n2" "another" (mkUser "u2" "Bob")]),
      Sample.world, Sample.world.
    split; [by vm_compute|]. split; [|reflexivity].
    eexists. split; [by left|reflexivity].
  - destruct (canUserResolveResponseNote_spec "u1" "r9" "n1" Sample.world)
      as [_ Hnone]; [reflexivity|reflexivity|done|done|done|reflexivity|].
    apply (Hnone Sample.world). by vm_compute.
Defined.

(** X15: on the sample store the one survey handed out is in progress and of
    type "web". *)
Lemma getSyncSurveys_computed_sound_witness :
  ∃ surveys w',
    getSyncSurveys (20 * Sample.day) "env1" "p1" "desktop" None Sample.pipelineWorld
    = (Ok surveys, w')
    ∧ ∀ survey, survey ∈ surveys →
        survey_status survey = "inProgress" ∧ survey_type survey = "web".
Proof.
  destruct (getSyncSurveys (20 * Sample.day) "env1" "p1" "desktop" None
              Sample.pipelineWorld) as [[surveys|e] w'] eqn:Hrun;
    [|by vm_compute in Hrun].
  exists surveys, w'. split; [done|].
  destruct (getSyncSurveys_computed_sound (20 * Sample.day) "env1" "p1" "desktop" None
              Sample.pipelineWorld w' surveys)
    as (product & person & _ & _ & Hsound); [reflexivity|exact Hrun|].
  intros survey Hin. destruct (Hsound survey Hin) as (? & ? & _). done.
Defined.

(** X16: environment "env9" has no product. *)
Lemma getSyncSurveys_missing_product_or_person_witness :
  getSyncSurveys 0 "env9" "p1" "desktop" None Sample.pipelineWorld
  = (Err (GenericError "Product not found"), Sample.pipelineWorld).
Proof.
  destruct (getSyncSurveys_missing_product_or_person 0 "env9" "p1" "desktop" None
              Sample.pipelineWorld) as [Hproduct _]; [reflexivity|reflexivity|].
  by apply Hproduct.
Defined.

(** X17: survey "s9" is not in the sample store. *)
Lemma updateSurvey_not_found_witness :
  let updatedSurvey :=
    mkSurvey "s9" (DateObj 0) (DateObj 0) "s9" "web" "env1" None "draft"
      "displayOnce" None None None [] None None in
  ∃ w', updateSurvey 0 updatedSurvey Sample.world
        = (Err (ResourceNotFoundError "Survey" "s9"), w')
        ∧ store w' = store Sample.world.
Proof.
  intros updatedSurvey.
  apply (updateSurvey_not_found 0 updatedSurvey Sample.world);
    [reflexivity|reflexivity|reflexivity|].
  intros row Hrow. repeat (apply elem_of_cons in Hrow as [->|Hrow]); [done|done|].
  by apply elem_of_nil in Hrow.
Defined.

(** X18: a body with both kinds of triggers. *)
Lemma createSurvey_rejects_before_writing_witness :
  let surveyBody :=
    mkSurveyInput (Some "NPS") (Some "web") None None None None None None None
      (Some ["signup"]) (Some "inline") in
  createSurvey "env1" surveyBody Sample.world
  = (Err (InvalidInputError "Survey body cannot have both triggers and inlineTriggers"),
     Sample.world).
Proof.
  intros surveyBody.
  destruct (createSurvey_rejects_before_writing "env1" surveyBody Sample.world)
    as [Hboth _]; [reflexivity|].
  apply Hboth; by eexists.
Defined.

(** X22: a limit of one on the sample listing. *)
Lemma getSurveys_limit_witness :
  ∃ surveys,
    (getSurveys "env1" (Some 1%nat) None None Sample.pipelineWorld).1 = Ok surveys
    ∧ (length surveys ≤ 1)%nat.
Proof.
  destruct (getSurveys "env1" (Some 1%nat) None None Sample.pipelineWorld).1
    as [surveys|e] eqn:Hrun; [|by vm_compute in Hrun].
  exists surveys. split; [done|].
  destruct (getSurveys_limit "env1" None None Sample.pipelineWorld) as [Hlimit _];
    [reflexivity|].
  apply (Hlimit 0%nat surveys); [reflexivity|exact Hrun].
Defined.

End FurtherExamples.

(** X19, X20, X21 on a small database: "anonymous" owns the private segment
    "g1"; "everyone" is a shared segment; "other" is a link survey. *)
Section MigrationFrameExamples.
Import Migration.

Lemma main_idempotent_witness :
  let db :=
    mkDatabase
      [mkSurveyRow "answered" "web" None; mkSurveyRow "anonymous" "web" (Some "g1");
       mkSurveyRow "other" "link" (Some "g2")]
      [mkSegmentRow "g1" "anonymous" true; mkSegmentRow "g2" "everyone" false]
      [mkResponseRow "r2" "answered" (Some "p1") 20] in
  ∃ db', main db = Ok db' ∧ main db' = Ok db'.
Proof.
  intros db. destruct (main db) as [db'|e] eqn:Hrun; [|by vm_compute in Hrun].
  exists db'. split; [done|]. by destruct (main_idempotent db db' Hrun).
Defined.

Lemma main_frame_witness :
  let db :=
    mkDatabase
      [mkSurveyRow "answered" "web" None; mkSurveyRow "anonymous" "web" (Some "g1");
       mkSurveyRow "other" "link" (Some "g2")]
      [mkSegmentRow "g1" "anonymous" true; mkSegmentRow "g2" "everyone" false]
      [mkResponseRow "r2" "answered" (Some "p1") 20] in
  ∃ db', main db = Ok db' ∧ responses db' = responses db
         ∧ sv_id <$> surveys db' = ["answered"; "anonymous"; "other"].
Proof.
  intros db. destruct (main db) as [db'|e] eqn:Hrun; [|by vm_compute in Hrun].
  exists db'. split; [done|].
  destruct (main_frame db db' Hrun) as [Hresponses Hsurveys].
  split; [done|].
  assert (sv_id <$> surveys db' = sv_id <$> surveys db) as ->; [|reflexivity].
  induction Hsurveys as [|s s' l l' [Hid _] _ IH]; [done|].
  rewrite !fmap_cons. by rewrite Hid, IH.
Defined.

Lemma main_keeps_shared_segments_witness :
  let db :=
    mkDatabase
      [mkSurveyRow "answered" "web" None; mkSurveyRow "anonymous" "web" (Some "g1");
       mkSurveyRow "other" "link" (Some "g2")]
      [mkSegmentRow "g1" "anonymous" true; mkSegmentRow "g2" "everyone" false]
      [mkResponseRow "r2" "answered" (Some "p1") 20] in
  ∃ db', main db = Ok db' ∧ mkSegmentRow "g2" "everyone" false ∈ segments db'.
Proof.
  intros db. destruct (main db) as [db'|e] eqn:Hrun; [|by vm_compute in Hrun].
  exists db'. split; [done|].
  apply (main_keeps_shared_segments db db' _ Hrun); [by right; left|reflexivity|].
  intros g Hg Hprivate.
  repeat (apply elem_of_cons in Hg as [->|Hg]); [done|done|by apply elem_of_nil in Hg].
Defined.

End MigrationFrameExamples.
